(** * Pathway explorer: the pathway store, the record model and the tools

    A shallow embedding of [pathway_explorer/database.py] (the JSON-backed
    store [PathwayDatabase]), of the record model declared in
    [pathway_explorer/models.py], of the parts of [pathway_explorer/tools.py]
    that work on the store and on pathway documents (the known-pathways
    context and the "Add to database" block of
    [PathwayDiscoveryLLMTool._run], and [PathwayValidatorTool._run]) and of
    [save_pathways], [load_pathways] and the end of
    [discover_pathways_with_llm] of [pathway_explorer/agent.py],
    followed by the properties of the store and of the record model that
    the specification states and by further properties of the code.

    The embedding:
    - [Py]: the Python values that live in the store (what [json.load]
      returns and what [MetabolicPathway.dict()] produces), the exceptions,
      [==], subscripting, iteration, [append], [len], [str.lower], [str.join];
    - [Run]: a state-and-exception monad; Python exceptions keep the state
      reached when they were raised;
    - [OS]: paths, a file system with directories, files and access rights,
      a clock, the standard output, and the documents [json.dump] gives up
      on;
    - [Database]: [PathwayDatabase];
    - [Tools]: the known-pathways context of the discovery tool;
    - [Models]: the pydantic models as validators;
    - [Discovery]: the loop of the discovery tool that offers the pathways
      of the model to the store, and saves;
    - [Validator]: the validator tool;
    - [Agent]: the agent's collected pathways, their file and the ids of
      the discoveries.

    Then the vocabulary of the statements ([StoreTerms], [ModelTerms]) and
    concrete stores ([Examples]), and the same for the further properties;
    the lemmas ([StoreFacts], [LoadFacts], [SaveFacts], [ModelFacts]); the
    properties the specification states, each with the store or input on
    which it is run; and the further properties, each after the lemmas it
    needs. *)

From Stdlib Require Import ZArith String Ascii List Bool Floats Lia.
From Stdlib Require DecimalString DecimalNat.
From stdpp Require Import gmap strings list.
Import ListNotations.

Local Open Scope string_scope.
Local Open Scope list_scope.

(* ===================================================================== *)
(** ** Python values and exceptions *)
(* ===================================================================== *)

Module Py.

(** The objects the store holds: exactly the values [json.load] builds
    ([None], [bool], [int], [float], [str], [list], [dict] with [str] keys).
    A [dict] keeps its insertion order, so it is an association list; a
    well-formed one has no repeated key. *)
#[local] Unset Elimination Schemes.
Inductive value : Type :=
| VNone
| VBool (b : bool)
| VInt (z : Z)
| VFloat (f : float)
| VStr (s : string)
| VList (l : list value)
| VDict (d : list (string * value)).
#[local] Set Elimination Schemes.

(** The exceptions the modelled code can meet.  Every one of them is a
    subclass of [Exception]. *)
Inductive exn : Type :=
| KeyError (key : string)
| TypeError
| AttributeError
| FileNotFoundError (p : list string)
| FileExistsError (p : list string)
| NotADirectoryError (p : list string)
| IsADirectoryError (p : list string)
| PermissionError (p : list string)
| JSONDecodeError
| RecursionError
| ValueError
| OSError.

Inductive outcome (A : Type) : Type :=
| Ok (a : A)
| Raise (e : exn).
Arguments Ok {A} a.
Arguments Raise {A} e.

Definition is_JSONDecodeError (e : exn) : bool :=
  match e with JSONDecodeError => true | _ => false end.

(** [d.get(k)] on the association list: the entry of key [k]. *)
Fixpoint dict_get (d : list (string * value)) (k : string) : option value :=
  match d with
  | [] => None
  | (k', v) :: rest => if String.eqb k' k then Some v else dict_get rest k
  end.

(** The entry of key [k] replaced in place (the mutation of an object that
    the dict refers to); a dict without the key is left alone. *)
Fixpoint dict_store (k : string) (v : value) (d : list (string * value))
  : list (string * value) :=
  match d with
  | [] => []
  | (k', v') :: rest =>
      if String.eqb k' k then (k', v) :: rest else (k', v') :: dict_store k v rest
  end.

(** [v[k]] for a string key [k]: only a dict can be subscripted by a
    string; a missing key is a [KeyError], anything else a [TypeError]. *)
Definition subscript (v : value) (k : string) : outcome value :=
  match v with
  | VDict d =>
      match dict_get d k with
      | Some x => Ok x
      | None => Raise (KeyError k)
      end
  | _ => Raise TypeError
  end.

Fixpoint chars (s : string) : list value :=
  match s with
  | EmptyString => []
  | String c rest => VStr (String c EmptyString) :: chars rest
  end.

(** [iter(v)]: a list gives its elements, a string its characters, a dict
    its keys; the other values are not iterable. *)
Definition iterate (v : value) : outcome (list value) :=
  match v with
  | VList l => Ok l
  | VStr s => Ok (chars s)
  | VDict d => Ok (List.map (fun kv => VStr (fst kv)) d)
  | _ => Raise TypeError
  end.

(** The object under key [k] of the dict [v] replaced by its mutated
    state [x]. *)
Definition mutate_item (v : value) (k : string) (x : value) : value :=
  match v with
  | VDict d => VDict (dict_store k x d)
  | _ => v
  end.

(** [v.append(x)]: only lists have the method. *)
Definition append (v x : value) : outcome value :=
  match v with
  | VList l => Ok (VList (l ++ [x]))
  | _ => Raise AttributeError
  end.

(** [len(v)]. *)
Definition len (v : value) : outcome nat :=
  match v with
  | VList l => Ok (List.length l)
  | VStr s => Ok (String.length s)
  | VDict d => Ok (List.length d)
  | _ => Raise TypeError
  end.

(** *** Equality [==] *)

(** Numbers: [bool] is a subclass of [int], and an [int] equals a [float]
    when they denote the same real number. *)
Definition as_number (v : value) : option (Z + float) :=
  match v with
  | VBool b => Some (inl (if b then 1%Z else 0%Z))
  | VInt z => Some (inl z)
  | VFloat f => Some (inr f)
  | _ => None
  end.

Definition float_eq_int (f : float) (z : Z) : bool :=
  match Prim2SF f with
  | S754_zero _ => Z.eqb z 0
  | S754_finite s m e =>
      let sm := if s then Z.neg m else Z.pos m in
      if Z.leb 0 e then Z.eqb z (sm * 2 ^ e) else Z.eqb (z * 2 ^ (- e)) sm
  | _ => false
  end.

Definition num_eq (x y : Z + float) : bool :=
  match x, y with
  | inl a, inl b => Z.eqb a b
  | inr f, inr g => PrimFloat.eqb f g
  | inl a, inr g => float_eq_int g a
  | inr f, inl b => float_eq_int f b
  end.

(** [a == b].  Lists are compared element by element, dicts key by key
    whatever the order of their entries. *)
Fixpoint py_eq (a b : value) {struct a} : bool :=
  match a with
  | VNone => match b with VNone => true | _ => false end
  | VStr s => match b with VStr t => String.eqb s t | _ => false end
  | VList l =>
      match b with
      | VList l' =>
          (fix go (xs ys : list value) {struct xs} : bool :=
             match xs, ys with
             | [], [] => true
             | x :: xs', y :: ys' => py_eq x y && go xs' ys'
             | _, _ => false
             end) l l'
      | _ => false
      end
  | VDict d =>
      match b with
      | VDict d' =>
          Nat.eqb (List.length d) (List.length d') &&
          (fix go (xs : list (string * value)) {struct xs} : bool :=
             match xs with
             | [] => true
             | (k, v) :: xs' =>
                 match dict_get d' k with
                 | Some v' => py_eq v v' && go xs'
                 | None => false
                 end
             end) d
      | _ => false
      end
  | VBool _ | VInt _ | VFloat _ =>
      match as_number a, as_number b with
      | Some x, Some y => num_eq x y
      | _, _ => false
      end
  end.

(** *** Strings *)

(** [s.lower()] on the ASCII letters. *)
Definition lower_ascii (c : ascii) : ascii :=
  let n := nat_of_ascii c in
  if (Nat.leb 65 n && Nat.leb n 90)%bool then ascii_of_nat (n + 32) else c.

Fixpoint lower (s : string) : string :=
  match s with
  | EmptyString => EmptyString
  | String c rest => String (lower_ascii c) (lower rest)
  end.

(** [sep.join(items)]: every item has to be a [str]. *)
Fixpoint join (sep : string) (items : list value) : outcome string :=
  match items with
  | [] => Ok ""
  | VStr s :: rest =>
      match rest with
      | [] => Ok s
      | _ :: _ =>
          match join sep rest with
          | Ok t => Ok (String.append s (String.append sep t))
          | Raise e => Raise e
          end
      end
  | _ :: _ => Raise TypeError
  end.

End Py.
Import Py.

(* ===================================================================== *)
(** ** State and exceptions *)
(* ===================================================================== *)

Module Run.

(** A computation over a state [S] that returns or raises.  The state
    reached at the [raise] is kept: what was printed or written before an
    exception stays printed or written. *)
Definition M (S A : Type) : Type := S -> outcome A * S.

Definition ret {S A : Type} (a : A) : M S A := fun s => (Ok a, s).

Definition raise {S A : Type} (e : exn) : M S A := fun s => (Raise e, s).

Definition bind {S A B : Type} (m : M S A) (k : A -> M S B) : M S B :=
  fun s =>
    match m s with
    | (Ok a, s') => k a s'
    | (Raise e, s') => (Raise e, s')
    end.

(** The outcome of a pure Python operation, lifted. *)
Definition py {S A : Type} (o : outcome A) : M S A := fun s => (o, s).

(** [try: body / except Exception as e: handler e]. *)
Definition try_except {S A : Type} (body : M S A) (handler : exn -> M S A)
  : M S A :=
  fun s =>
    match body s with
    | (Ok a, s') => (Ok a, s')
    | (Raise e, s') => handler e s'
    end.

Declare Scope run_scope.
Delimit Scope run_scope with run.
Notation "'let*' x ':=' m 'in' k" := (bind m (fun x => k))
  (at level 10, x name, m at level 100, k at level 200) : run_scope.

End Run.
Import Run.
Local Open Scope run_scope.

(* ===================================================================== *)
(** ** The operating system: files, clock, standard output *)
(* ===================================================================== *)

Module OS.

(** A [pathlib.Path] relative to the working directory, as the list of its
    components; [[]] is the working directory itself ([Path(".")]). *)
Abbreviation path := (list string).

(** [p.parent]. *)
Definition parent (p : path) : path := removelast p.

(** What a regular file holds, up to what [json.load] makes of it: text
    that decodes to the document [v] (which is also what [json.dump] of [v]
    writes: decoding what the [json] module encoded gives the document
    back), or text that is no JSON document. *)
Inductive file_text : Type :=
| JsonText (v : value)
| NotJson (s : string).

(** The lines the store and the discovery tool print. *)
Inductive line : Type :=
| LoadingFrom (p : path)             (* Loading pathways from {p} *)
| ErrorLoadingJSON (e : exn)         (* Error loading JSON: {e} *)
| ErrorLoadingFile (e : exn)         (* Error loading file: {e} *)
| Saved (n : nat) (p : path)         (* Saved {n} pathways to {p} *)
| ErrorSaving (e : exn)              (* Error saving database: {e} *)
| AddingNew (name : value)           (* Adding new pathway: {name} *)
| AlreadyExists (name : value)       (* Pathway already exists: {name} *)
| CurrentKnown (s : string).         (* Current known pathways: {s} *)

(** The world outside the interpreter.  [denied] holds the paths the
    process has no right to open (a file) or to create entries in (a
    directory); [clock n] is what the [n]-th reading of
    [datetime.now().isoformat()] returns.  [refused v] tells what becomes
    of [json.dump] on a document [v] that it does not write in full: the
    exception it raises (a [RecursionError] on a document nested deeper
    than the interpreter has frames left, a [ValueError] on an [int] too
    long to print, an [OSError] of the write) and the text that is in the
    file by then, the beginning of the encoding; it is [None] for a
    document that is written in full. *)
Record world : Type := mkWorld {
  dirs : gset path;
  files : gmap path file_text;
  denied : gset path;
  clock : nat -> string;
  ticks : nat;
  stdout : list line;
  refused : value -> option (exn * string)
}.

Definition is_dir (w : world) (p : path) : bool :=
  bool_decide (p = []) || bool_decide (p ∈ dirs w).

Definition is_file (w : world) (p : path) : bool :=
  bool_decide (is_Some (files w !! p)).

Definition is_denied (w : world) (p : path) : bool :=
  bool_decide (p ∈ denied w).

Definition with_dirs (d : gset path) (w : world) : world :=
  mkWorld d (files w) (denied w) (clock w) (ticks w) (stdout w) (refused w).

Definition with_files (f : gmap path file_text) (w : world) : world :=
  mkWorld (dirs w) f (denied w) (clock w) (ticks w) (stdout w) (refused w).

(** The world once [l] is printed, and once the clock is read. *)
Definition logged (l : line) (w : world) : world :=
  mkWorld (dirs w) (files w) (denied w) (clock w) (ticks w) (stdout w ++ [l])
    (refused w).

Definition ticked (w : world) : world :=
  mkWorld (dirs w) (files w) (denied w) (clock w) (S (ticks w)) (stdout w)
    (refused w).

(** [print(l)]. *)
Definition print (l : line) : M world unit := fun w => (Ok tt, logged l w).

(** [datetime.now().isoformat()]: one reading of the clock. *)
Definition now_isoformat : M world string :=
  fun w => (Ok (clock w (ticks w)), ticked w).

(** [p.exists()]. *)
Definition path_exists (p : path) : M world bool :=
  fun w => (Ok (is_dir w p || is_file w p), w).

(** [os.mkdir(p)]: one level only. *)
Definition os_mkdir (p : path) : M world unit :=
  fun w =>
    if is_dir w p || is_file w p then (Raise (FileExistsError p), w)
    else if is_file w (parent p) then (Raise (NotADirectoryError p), w)
    else if negb (is_dir w (parent p)) then (Raise (FileNotFoundError p), w)
    else if is_denied w (parent p) then (Raise (PermissionError p), w)
    else (Ok tt, with_dirs ({[ p ]} ∪ dirs w) w).

(** [p.mkdir(exist_ok=True)], with [parents] left at its default [False]:
    a missing parent is re-raised, any other [OSError] is dropped only if
    [p] is a directory. *)
Definition mkdir_exist_ok (p : path) : M world unit :=
  try_except (os_mkdir p)
    (fun e =>
       match e with
       | FileNotFoundError _ => raise e
       | _ => fun w => if is_dir w p then (Ok tt, w) else (Raise e, w)
       end).

(** [open(p, 'r')]: the text of the file. *)
Definition open_read (p : path) : M world file_text :=
  fun w =>
    if is_dir w p then (Raise (IsADirectoryError p), w)
    else
      match files w !! p with
      | None => (Raise (FileNotFoundError p), w)
      | Some t =>
          if is_denied w p then (Raise (PermissionError p), w) else (Ok t, w)
      end.

(** [json.load(f)]. *)
Definition json_load (t : file_text) : M world value :=
  match t with
  | JsonText v => ret v
  | NotJson _ => raise JSONDecodeError
  end.

(** The [OSError] that [open(p, 'w')] raises, if it raises. *)
Definition write_error (w : world) (p : path) : option exn :=
  if is_dir w p then Some (IsADirectoryError p)
  else if is_file w (parent p) then Some (NotADirectoryError p)
  else if negb (is_dir w (parent p)) then Some (FileNotFoundError p)
  else if is_denied w p || (negb (is_file w p) && is_denied w (parent p))
  then Some (PermissionError p)
  else None.

(** [open(p, 'w')]: creates or truncates the file. *)
Definition open_write (p : path) : M world unit :=
  fun w =>
    match write_error w p with
    | Some e => (Raise e, w)
    | None => (Ok tt, with_files (<[ p := NotJson "" ]> (files w)) w)
    end.

(** [json.dump(v, f, indent=2)] on the file opened at [p], and its close.
    The encoding is written piece by piece: when [json.dump] raises, the
    file is closed on what was written until then, which is no JSON
    document. *)
Definition json_dump (v : value) (p : path) : M world unit :=
  fun w =>
    match refused w v with
    | Some (e, written_so_far) =>
        (Raise e, with_files (<[ p := NotJson written_so_far ]> (files w)) w)
    | None => (Ok tt, with_files (<[ p := JsonText v ]> (files w)) w)
    end.

End OS.
Import OS.

(* ===================================================================== *)
(** ** database.py *)
(* ===================================================================== *)

Module Database.

(** The instance attributes of a [PathwayDatabase]. *)
Record PathwayDatabase : Type := mkDB {
  data_file : path;
  pathways : value
}.

(** A method runs on the object and the world. *)
Definition obj : Type := PathwayDatabase * world.

Definition io {A : Type} (m : M world A) : M obj A :=
  fun s =>
    match m (snd s) with
    | (r, w') => (r, (fst s, w'))
    end.

Definition self : M obj PathwayDatabase := fun s => (Ok (fst s), s).

Definition set_pathways (v : value) : M obj unit :=
  fun s => (Ok tt, (mkDB (data_file (fst s)) v, snd s)).

(** The structure returned when the file does not exist or has an error. *)
Definition empty_structure (t : string) : value :=
  VDict [("pathways", VList []); ("last_updated", VStr t)].

(** [_load_data]: load existing pathway data from file. *)
Definition _load_data (data_file : path) : M world value :=
  let* loaded :=
    try_except
      (let* present := path_exists data_file in
       if present then
         let* f := open_read data_file in
         let* _ := print (LoadingFrom data_file) in
         let* v := json_load f in
         ret (Some v)
       else ret None)
      (fun e =>
         if is_JSONDecodeError e
         then let* _ := print (ErrorLoadingJSON e) in ret None
         else let* _ := print (ErrorLoadingFile e) in ret None) in
  match loaded with
  | Some v => ret v
  | None =>
      let* t := now_isoformat in
      ret (empty_structure t)
  end.

(** [__init__]. *)
Definition __init__ (data_file : path) : M world PathwayDatabase :=
  let* _ := mkdir_exist_ok (parent data_file) in
  let* p := _load_data data_file in
  ret (mkDB data_file p).

(** [save]: save current pathways to file. *)
Definition save : M obj unit :=
  try_except
    (let* db := self in
     let* lst := py (subscript (pathways db) "pathways") in
     let* t := io now_isoformat in
     let data := VDict [("pathways", lst); ("last_updated", VStr t)] in
     let* _ := io (open_write (data_file db)) in
     let* _ := io (json_dump data (data_file db)) in
     let* db' := self in
     let* lst' := py (subscript (pathways db') "pathways") in
     let* n := py (len lst') in
     io (print (Saved n (data_file db'))))
    (fun e =>
       let* _ := io (print (ErrorSaving e)) in
       raise e).

(** The first definition of [get_known_pathways] (line 44), which the
    second definition of the same name replaces in the class: the set of
    the lower-cased names. *)
Fixpoint lowered_names (items : list value) : outcome (gset string) :=
  match items with
  | [] => Ok ∅
  | p :: rest =>
      match subscript p "name" with
      | Raise e => Raise e
      | Ok (VStr s) =>
          match lowered_names rest with
          | Ok acc => Ok ({[ lower s ]} ∪ acc)
          | Raise e => Raise e
          end
      | Ok _ => Raise AttributeError
      end
  end.

Definition get_known_pathways_shadowed : M obj (gset string) :=
  let* db := self in
  let* lst := py (subscript (pathways db) "pathways") in
  let* items := py (iterate lst) in
  py (lowered_names items).

(** [any(p['name'] == pathway['name'] for p in items)]: for each [p] in
    turn, [p['name']] is evaluated before [pathway['name']], and the scan
    stops at the first match. *)
Fixpoint any_same_name (items : list value) (pathway : value) : outcome bool :=
  match items with
  | [] => Ok false
  | p :: rest =>
      match subscript p "name" with
      | Raise e => Raise e
      | Ok a =>
          match subscript pathway "name" with
          | Raise e => Raise e
          | Ok b => if py_eq a b then Ok true else any_same_name rest pathway
          end
      end
  end.

(** [add_pathway]: add a new pathway to the database. *)
Definition add_pathway (pathway : value) : M obj unit :=
  let* db := self in
  let* lst := py (subscript (pathways db) "pathways") in
  let* items := py (iterate lst) in
  let* found := py (any_same_name items pathway) in
  if negb found then
    let* n := py (subscript pathway "name") in
    let* _ := io (print (AddingNew n)) in
    let* db' := self in
    let* lst' := py (subscript (pathways db') "pathways") in
    let* appended := py (append lst' pathway) in
    set_pathways (mutate_item (pathways db') "pathways" appended)
  else
    let* n := py (subscript pathway "name") in
    io (print (AlreadyExists n)).

(** [[p['name'] for p in items]]. *)
Fixpoint names_of (items : list value) : outcome (list value) :=
  match items with
  | [] => Ok []
  | p :: rest =>
      match subscript p "name" with
      | Raise e => Raise e
      | Ok n =>
          match names_of rest with
          | Ok ns => Ok (n :: ns)
          | Raise e => Raise e
          end
      end
  end.

(** The second definition of [get_known_pathways] (line 56), the one the
    class ends up with: the list of the names. *)
Definition get_known_pathways : M obj (list value) :=
  let* db := self in
  let* lst := py (subscript (pathways db) "pathways") in
  let* items := py (iterate lst) in
  py (names_of items).

End Database.
Import Database.

(* ===================================================================== *)
(** ** tools.py: what the discovery tool tells the model it already knows *)
(* ===================================================================== *)

Module Tools.

(** [", ".join(known_pathways) if known_pathways else "none"]. *)
Definition known_pathways_str (known_pathways : list value) : outcome string :=
  match known_pathways with
  | [] => Ok "none"
  | _ :: _ => join ", " known_pathways
  end.

(** [PathwayDiscoveryLLMTool._run] from its first line to the value bound
    to [known_pathways] in [prompt.format_messages] (lines 260 to 266); an
    exception raised on the way is caught by the [except Exception] that
    closes [_run], which returns an error message instead of prompting. *)
Definition _run_known_pathways : M obj (list value * string) :=
  let* known_pathways := get_known_pathways in
  let* known_pathways_str := py (known_pathways_str known_pathways) in
  let* _ := io (print (CurrentKnown known_pathways_str)) in
  ret (known_pathways, known_pathways_str).

End Tools.

(* ===================================================================== *)
(** ** models.py: the record model *)
(* ===================================================================== *)

Module Models.

(** Where in the input a validation error sits, and its kind. *)
Inductive loc_item : Type :=
| Field (name : string)
| Index (i : nat).

Inductive error_type : Type :=
| missing                 (* Field required *)
| string_type             (* Input should be a valid string *)
| float_type              (* Input should be a valid number *)
| float_parsing           (* ... unable to parse string as a number *)
| greater_than_equal      (* Input should be greater than or equal to 0 *)
| less_than_equal         (* Input should be less than or equal to 1 *)
| list_type               (* Input should be a valid list *)
| model_type              (* Input should be a valid dictionary *)
| datetime_type.          (* Input should be a valid datetime *)

Definition error : Type := list loc_item * error_type.

(** Constructing a model either gives the record or raises one
    [ValidationError] that carries every error found. *)
Inductive validation (A : Type) : Type :=
| Valid (a : A)
| Invalid (errs : list error).
Arguments Valid {A} a.
Arguments Invalid {A} errs.

Definition errors {A : Type} (r : validation A) : list error :=
  match r with
  | Valid _ => []
  | Invalid es => es
  end.

Definition is_valid {A : Type} (r : validation A) : bool :=
  match r with
  | Valid _ => true
  | Invalid _ => false
  end.

(** The fields of a model are validated one after the other and the
    errors of all of them are collected. *)
Definition ap {A B : Type} (f : validation (A -> B)) (x : validation A)
  : validation B :=
  match f, x with
  | Valid g, Valid a => Valid (g a)
  | _, _ => Invalid (errors f ++ errors x)
  end.

Declare Scope validation_scope.
Delimit Scope validation_scope with validation.
Notation "f <*> x" := (ap f x) (at level 51, left associativity)
  : validation_scope.
Local Open Scope validation_scope.

Definition at_loc {A : Type} (l : loc_item) (r : validation A) : validation A :=
  match r with
  | Valid a => Valid a
  | Invalid es => Invalid (List.map (fun e => (l :: fst e, snd e)) es)
  end.

(** [name: T = Field(...)]: a required field. *)
Definition required {A : Type} (d : list (string * value)) (k : string)
    (f : value -> validation A) : validation A :=
  match dict_get d k with
  | None => Invalid [([Field k], missing)]
  | Some v => at_loc (Field k) (f v)
  end.

(** [name: T = Field(default)]: the default is taken as it is. *)
Definition with_default {A : Type} (d : list (string * value)) (k : string)
    (default : A) (f : value -> validation A) : validation A :=
  match dict_get d k with
  | None => Valid default
  | Some v => at_loc (Field k) (f v)
  end.

(** [str]. *)
Definition str (v : value) : validation string :=
  match v with
  | VStr s => Valid s
  | _ => Invalid [([], string_type)]
  end.

(** [Optional[T]]. *)
Definition optional {A : Type} (f : value -> validation A) (v : value)
  : validation (option A) :=
  match v with
  | VNone => Valid None
  | _ => match f v with
         | Valid a => Valid (Some a)
         | Invalid es => Invalid es
         end
  end.

(** [List[T]]: the items are validated in order, each at its index. *)
Fixpoint items_from {A : Type} (f : value -> validation A) (i : nat)
    (l : list value) : validation (list A) :=
  match l with
  | [] => Valid []
  | v :: rest => Valid cons <*> at_loc (Index i) (f v) <*> items_from f (S i) rest
  end.

Definition list_of {A : Type} (f : value -> validation A) (v : value)
  : validation (list A) :=
  match v with
  | VList l => items_from f 0 l
  | _ => Invalid [([], list_type)]
  end.

(** [float(z)]: the nearest double. *)
Definition float_of_int (z : Z) : float :=
  SF2Prim (binary_normalize prec emax z 0 false).

Section Coercions.

(** What pydantic does with text given for a number, and with anything
    given for a timestamp, is the library's; and [datetime.now], the
    default factory of [last_updated], reads the clock. *)
Variable float_of_str : string -> option float.
Variable datetime : Type.
Variable datetime_of_value : value -> option datetime.
Variable now : datetime.

(** [float], before its constraints. *)
Definition float_input (v : value) : validation float :=
  match v with
  | VFloat f => Valid f
  | VInt z => Valid (float_of_int z)
  | VBool b => Valid (if b then 1%float else 0%float)
  | VStr s =>
      match float_of_str s with
      | Some f => Valid f
      | None => Invalid [([], float_parsing)]
      end
  | _ => Invalid [([], float_type)]
  end.

(** [float = Field(..., ge=0.0, le=1.0)]. *)
Definition confidence_float (v : value) : validation float :=
  match float_input v with
  | Invalid es => Invalid es
  | Valid f =>
      if negb (PrimFloat.leb 0%float f) then Invalid [([], greater_than_equal)]
      else if negb (PrimFloat.leb f 1%float) then Invalid [([], less_than_equal)]
      else Valid f
  end.

Definition datetime_input (v : value) : validation datetime :=
  match datetime_of_value v with
  | Some t => Valid t
  | None => Invalid [([], datetime_type)]
  end.

(** A chemical compound in a metabolic pathway. *)
Record Compound : Type := mkCompound {
  compound_id : string;
  compound_name : string;
  compound_formula : option string
}.

(** A reaction in a metabolic pathway. *)
Record Reaction : Type := mkReaction {
  reactants : list string;
  products : list string;
  enzymes : option (list string)
}.

(** Metadata about the pathway. *)
Record PathwayMetadata : Type := mkPathwayMetadata {
  source : string;
  confidence : float;
  last_updated : datetime;
  verification_status : string;
  llm_validation_notes : option string
}.

(** A complete metabolic pathway. *)
Record Pathway : Type := mkPathway {
  id : string;
  name : string;
  description : option string;
  compounds : list Compound;
  reactions : list Reaction;
  metadata : PathwayMetadata;
  related_pathways : list string
}.

(** A nested model is given as a dict. *)
Definition model {A : Type} (construct : list (string * value) -> validation A)
    (v : value) : validation A :=
  match v with
  | VDict d => construct d
  | _ => Invalid [([], model_type)]
  end.

(** Constructing a [Compound] from the keyword arguments [d]. *)
Definition construct_Compound (d : list (string * value)) : validation Compound :=
  Valid mkCompound
    <*> required d "id" str
    <*> required d "name" str
    <*> with_default d "formula" None (optional str).

(** Constructing a [Reaction] from the keyword arguments [d]. *)
Definition construct_Reaction (d : list (string * value)) : validation Reaction :=
  Valid mkReaction
    <*> required d "reactants" (list_of str)
    <*> required d "products" (list_of str)
    <*> with_default d "enzymes" (Some []) (optional (list_of str)).

(** Constructing a [PathwayMetadata] from the keyword arguments [d]. *)
Definition construct_PathwayMetadata (d : list (string * value))
  : validation PathwayMetadata :=
  Valid mkPathwayMetadata
    <*> required d "source" str
    <*> required d "confidence" confidence_float
    <*> with_default d "last_updated" now datetime_input
    <*> with_default d "verification_status" "unverified" str
    <*> with_default d "llm_validation_notes" None (optional str).

(** Constructing a [Pathway] from the keyword arguments [d]. *)
Definition construct_Pathway (d : list (string * value)) : validation Pathway :=
  Valid mkPathway
    <*> required d "id" str
    <*> required d "name" str
    <*> with_default d "description" None (optional str)
    <*> with_default d "compounds" [] (list_of (model construct_Compound))
    <*> with_default d "reactions" [] (list_of (model construct_Reaction))
    <*> required d "metadata" (model construct_PathwayMetadata)
    <*> with_default d "related_pathways" [] (list_of str).

End Coercions.

Arguments source {datetime} _.
Arguments confidence {datetime} _.
Arguments last_updated {datetime} _.
Arguments verification_status {datetime} _.
Arguments llm_validation_notes {datetime} _.
Arguments id {datetime} _.
Arguments name {datetime} _.
Arguments description {datetime} _.
Arguments compounds {datetime} _.
Arguments reactions {datetime} _.
Arguments metadata {datetime} _.
Arguments related_pathways {datetime} _.

(** The example of [Pathway.Config.json_schema_extra]. *)
Definition schema_example : list (string * value) :=
  [ ("id", VStr "GLY001");
    ("name", VStr "Glycolysis");
    ("description",
     VStr "Metabolic pathway that breaks down glucose into pyruvate");
    ("compounds",
     VList [VDict [("id", VStr "C00031"); ("name", VStr "Glucose");
                   ("formula", VStr "C6H12O6")]]);
    ("reactions",
     VList [VDict [("reactants", VList [VStr "C00031"]);
                   ("products", VList [VStr "C00668"]);
                   ("enzymes", VList [VStr "EC:2.7.1.1"])]]);
    ("metadata",
     VDict [("source", VStr "KEGG");
            ("confidence", VFloat 0x1.e666666666666p-1);
            ("verification_status", VStr "verified");
            ("llm_validation_notes",
             VStr "Validated against multiple sources")]);
    ("related_pathways", VList [VStr "GLU001"; VStr "PYR001"]) ].

End Models.

(* ===================================================================== *)
(** ** tools.py: the discovery tool adds what the model returned *)
(* ===================================================================== *)

Module Discovery.

(** The [MetabolicPathway] the module [tools] ends up with: the class of
    line 196, which replaces the one of line 30. *)
Record MetabolicPathway : Type := mkMetabolicPathway {
  name : string;
  description : string;
  compounds : list string;
  enzymes : list string
}.

(** [pathway.dict()]. *)
Definition dict (pathway : MetabolicPathway) : value :=
  VDict [("name", VStr (name pathway));
         ("description", VStr (description pathway));
         ("compounds", VList (VStr <$> compounds pathway));
         ("enzymes", VList (VStr <$> enzymes pathway))].

(** [for pathway in pathways: self.database.add_pathway(pathway.dict())]. *)
Fixpoint add_each (pathways : list MetabolicPathway) : M obj unit :=
  match pathways with
  | [] => ret tt
  | pathway :: rest =>
      let* _ := add_pathway (dict pathway) in
      add_each rest
  end.

(** The block "Add to database" of [PathwayDiscoveryLLMTool._run] (lines
    298 to 304), from [initial_count] to [final_count], which are the two
    numbers returned. *)
Definition add_to_database (pathways : list MetabolicPathway)
  : M obj (nat * nat) :=
  let* db := self in
  let* lst := py (subscript (Database.pathways db) "pathways") in
  let* initial_count := py (len lst) in
  let* _ := add_each pathways in
  let* _ := save in
  let* db' := self in
  let* lst' := py (subscript (Database.pathways db') "pathways") in
  let* final_count := py (len lst') in
  ret (initial_count, final_count).

End Discovery.

(* ===================================================================== *)
(** ** tools.py: the validator tool *)
(* ===================================================================== *)

Module Mapping.

(** [d[k] = v] on a dict, whatever its values: the entry of [k] is
    replaced where it stands, or added at the end. *)
Fixpoint dict_setitem {A : Type} (k : string) (v : A) (d : list (string * A))
  : list (string * A) :=
  match d with
  | [] => [(k, v)]
  | (k', v') :: rest =>
      if String.eqb k' k then (k', v) :: rest
      else (k', v') :: dict_setitem k v rest
  end.

End Mapping.
Import Mapping.

Module Validator.

(** [needle in hay] on two strings. *)
Fixpoint substring_of (needle hay : string) : bool :=
  String.prefix needle hay ||
  match hay with
  | EmptyString => false
  | String _ rest => substring_of needle rest
  end.

(** [item in container] for a string [item]: a key of a dict, an element
    of a list, a substring of a string; nothing else is a container. *)
Definition contains (container : value) (item : string) : outcome bool :=
  match container with
  | VDict d =>
      Ok (match dict_get d item with Some _ => true | None => false end)
  | VList l => Ok (existsb (fun x => py_eq x (VStr item)) l)
  | VStr s => Ok (substring_of item s)
  | _ => Raise TypeError
  end.

(** [container[k] = v] for a string key: only a dict takes it. *)
Definition setitem (container : value) (k : string) (v : value)
  : outcome value :=
  match container with
  | VDict d => Ok (VDict (dict_setitem k v d))
  | _ => Raise TypeError
  end.

Definition required_fields : list string := ["id"; "name"; "compounds"].

(** [[field for field in fields if field not in pathway_dict]]. *)
Fixpoint missing_fields (pathway_dict : value) (fields : list string)
  : outcome (list string) :=
  match fields with
  | [] => Ok []
  | field :: rest =>
      match contains pathway_dict field with
      | Raise e => Raise e
      | Ok present =>
          match missing_fields pathway_dict rest with
          | Raise e => Raise e
          | Ok missing => Ok (if present then missing else field :: missing)
          end
      end
  end.

(** [pathway_dict["metadata"][k] = v]: the dict under ['metadata'] is
    changed in place. *)
Definition set_metadata (pathway_dict : value) (k : string) (v : value)
  : outcome value :=
  match subscript pathway_dict "metadata" with
  | Raise e => Raise e
  | Ok metadata =>
      match setitem metadata k v with
      | Raise e => Raise e
      | Ok metadata' => Ok (mutate_item pathway_dict "metadata" metadata')
      end
  end.

(** The four strings [PathwayValidatorTool._run] returns. *)
Inductive output : Type :=
| MissingRequiredFields (fields : list string)
    (* Validation Error: Missing required fields: {', '.join(fields)} *)
| InvalidJSONData                 (* Error: Invalid JSON data *)
| ErrorDuringValidation (e : exn) (* Error during validation: {e} *)
| Validated (pathway_dict : value).
    (* json.dumps(pathway_dict, indent=2) *)

(** [PathwayValidatorTool._run]; its argument is a string, read by
    [json.loads]. *)
Definition _run (pathway_data : file_text) : output :=
  match pathway_data with
  | NotJson _ => InvalidJSONData
  | JsonText pathway_dict =>
      match missing_fields pathway_dict required_fields with
      | Raise e => ErrorDuringValidation e
      | Ok (field :: rest) => MissingRequiredFields (field :: rest)
      | Ok [] =>
          match set_metadata pathway_dict "verification_status"
                  (VStr "validated") with
          | Raise e => ErrorDuringValidation e
          | Ok pathway_dict' =>
              match set_metadata pathway_dict' "llm_validation_notes"
                      (VStr "Basic validation passed") with
              | Raise e => ErrorDuringValidation e
              | Ok pathway_dict'' => Validated pathway_dict''
              end
          end
      end
  end.

End Validator.

(* ===================================================================== *)
(** ** agent.py: the collected pathways *)
(* ===================================================================== *)

Module Agent.
Import Models.

(** What the [try] blocks of the agent can catch: the exceptions of the
    interpreter and of the operating system, and pydantic's
    [ValidationError] with the errors it carries. *)
Inductive error : Type :=
| Raised (e : exn)
| ValidationError (errs : list Models.error).

(** The lines [save_pathways] and [load_pathways] print. *)
Inductive report : Type :=
| ErrorSavingPathways (e : error)     (* Error saving pathways: {e} *)
| ErrorLoadingPathways (e : error).   (* Error loading pathways: {e} *)

(** [v.items()]. *)
Definition items (v : value) : outcome (list (string * value)) :=
  match v with
  | VDict d => Ok d
  | _ => Raise AttributeError
  end.

(** [str(n)] of a count. *)
Definition str_of_count (n : nat) : string :=
  DecimalString.NilEmpty.string_of_uint (Nat.to_uint n).

(** [f"LLM_PATH_{n}"]. *)
Definition discovered_id (n : nat) : string :=
  String.append "LLM_PATH_" (str_of_count n).

Section Coercions.

Variable float_of_str : string -> option float.
Variable datetime : Type.
Variable datetime_of_value : value -> option datetime.
Variable now : datetime.

(** [str(t)] of a [datetime]: what [json.dump(..., default=str)] writes
    for it. *)
Variable str_of_datetime : datetime -> string.

Definition or_None {A : Type} (f : A -> value) (o : option A) : value :=
  match o with
  | None => VNone
  | Some a => f a
  end.

Definition strs (l : list string) : value := VList (VStr <$> l).

(** [.dict()] of each model, as [json.dump(..., default=str)] encodes it:
    the fields in the order of their declaration, a nested model as a
    dict, the timestamp as its [str]. *)
Definition Compound_dict (c : Compound) : value :=
  VDict [("id", VStr (compound_id c));
         ("name", VStr (compound_name c));
         ("formula", or_None VStr (compound_formula c))].

Definition Reaction_dict (r : Reaction) : value :=
  VDict [("reactants", strs (reactants r));
         ("products", strs (products r));
         ("enzymes", or_None strs (enzymes r))].

Definition PathwayMetadata_dict (m : PathwayMetadata datetime) : value :=
  VDict [("source", VStr (source m));
         ("confidence", VFloat (confidence m));
         ("last_updated", VStr (str_of_datetime (last_updated m)));
         ("verification_status", VStr (verification_status m));
         ("llm_validation_notes", or_None VStr (llm_validation_notes m))].

Definition Pathway_dict (p : Pathway datetime) : value :=
  VDict [("id", VStr (id p));
         ("name", VStr (name p));
         ("description", or_None VStr (description p));
         ("compounds", VList (Compound_dict <$> compounds p));
         ("reactions", VList (Reaction_dict <$> reactions p));
         ("metadata", PathwayMetadata_dict (metadata p));
         ("related_pathways", strs (related_pathways p))].

(** The attribute of a [PathwayExplorerAgent] that the two methods use:
    a dict from ids to [Pathway] objects. *)
Record PathwayExplorerAgent : Type := mkAgent {
  collected_pathways : list (string * Pathway datetime)
}.

(** The outcome of an expression that can also raise a
    [ValidationError]. *)
Inductive attempt (A : Type) : Type :=
| Done (a : A)
| Failed (e : error).
Arguments Done {A} a.
Arguments Failed {A} e.

(** [Pathway] called on the entries of [pathway_data] as its keyword
    arguments. *)
Definition Pathway_from (pathway_data : value) : attempt (Pathway datetime) :=
  match pathway_data with
  | VDict d =>
      match construct_Pathway float_of_str datetime datetime_of_value now d with
      | Valid p => Done p
      | Invalid errs => Failed (ValidationError errs)
      end
  | _ => Failed (Raised TypeError)
  end.

(** The dict comprehension of [load_pathways]: for each [id] and
    [pathway_data] in [items], the [Pathway] made of [pathway_data] is
    stored under [id]; [acc] is the dict built so far. *)
Fixpoint Pathway_each (items : list (string * value))
    (acc : list (string * Pathway datetime))
  : attempt (list (string * Pathway datetime)) :=
  match items with
  | [] => Done acc
  | (id, pathway_data) :: rest =>
      match Pathway_from pathway_data with
      | Failed e => Failed e
      | Done p => Pathway_each rest (dict_setitem id p acc)
      end
  end.

(** [pathway.id = id']: the model does not validate an assignment. *)
Definition with_id (id' : string) (p : Pathway datetime) : Pathway datetime :=
  mkPathway datetime id' (name p) (description p) (compounds p) (reactions p)
    (metadata p) (related_pathways p).

(** The end of [discover_pathways_with_llm] (lines 212 to 218): the
    pathway gets an id made of the number of collected pathways, is stored
    under it, and is returned. *)
Definition store_discovered (pathway : Pathway datetime)
    (self : PathwayExplorerAgent)
  : list (Pathway datetime) * PathwayExplorerAgent :=
  let pathway :=
    with_id (discovered_id (length (collected_pathways self))) pathway in
  ([pathway],
   mkAgent (dict_setitem (id pathway) pathway (collected_pathways self))).



(** [load_pathways]: what it prints, the agent and the world it leaves. *)
Definition load_pathways (filepath : path) (self : PathwayExplorerAgent)
  : world -> list report * PathwayExplorerAgent * world :=
  fun w =>
    match (let* f := open_read filepath in
           let* pathways_dict := json_load f in
           py (items pathways_dict)) w with
    | (Raise e, w') => ([ErrorLoadingPathways (Raised e)], self, w')
    | (Ok pathway_items, w') =>
        match Pathway_each pathway_items [] with
        | Failed e => ([ErrorLoadingPathways e], self, w')
        | Done loaded => ([], mkAgent loaded, w')
        end
    end.

End Coercions.

Arguments collected_pathways {datetime} _.
Arguments mkAgent {datetime} _.
Arguments Done {A} a.
Arguments Failed {A} e.

End Agent.

(* ===================================================================== *)
(** ** Vocabulary of the statements *)
(* ===================================================================== *)

Module StoreTerms.
Import Database.

(** The name of an entry, when the entry is a dict whose ['name'] is a
    string, as the record model has it. *)
Definition str_name (p : value) : option string :=
  match subscript p "name" with
  | Ok (VStr s) => Some s
  | _ => None
  end.

Definition str_named (p : value) : Prop := is_Some (str_name p).

(** No two entries share a name. *)
Definition unique_names (l : list value) : Prop := NoDup (str_name <$> l).

(** The store after [pathway] joined the list [l] of its entries. *)
Definition appended (db : PathwayDatabase) (l : list value) (pathway : value)
  : PathwayDatabase :=
  mkDB (data_file db)
       (mutate_item (pathways db) "pathways" (VList (l ++ [pathway]))).

(** A dict that has no ['name']. *)
Definition nameless (p : value) : Prop :=
  exists d, p = VDict d /\ dict_get d "name" = None.

Definition is_dict (p : value) : Prop := exists d, p = VDict d.

(** An entry that has a name, and another one than [n]. *)
Definition other_name (n : value) (p : value) : Prop :=
  exists a, subscript p "name" = Ok a /\ py_eq a n = false.

(** The file at [p] is a readable regular file in an existing directory
    and its text decodes to [doc]. *)
Definition holds_document (w : world) (p : path) (doc : value) : Prop :=
  is_dir w (parent p) = true /\
  is_dir w p = false /\
  files w !! p = Some (JsonText doc) /\
  is_denied w p = false.

(** The document [save] writes at a clock reading [t]. *)
Definition saved_document (lst : value) (t : string) : value :=
  VDict [("pathways", lst); ("last_updated", VStr t)].

(** The world once [save] has written the file at [p]. *)
Definition written (p : path) (doc : value) (w : world) : world :=
  with_files (<[ p := JsonText doc ]> (files w)) (ticked w).

(** The world once [json.dump] has raised in [save], with [text] in the
    file at [p]. *)
Definition truncated (p : path) (text : string) (w : world) : world :=
  with_files (<[ p := NotJson text ]> (files w)) (ticked w).

End StoreTerms.

Module ModelTerms.
Import Models.

Definition is_str (v : value) : Prop := exists s, v = VStr s.

Definition none_or (P : value -> Prop) (v : value) : Prop := v = VNone \/ P v.

Definition list_where (P : value -> Prop) (v : value) : Prop :=
  exists l, v = VList l /\ Forall P l.

Definition present (P : value -> Prop) (d : list (string * value)) (k : string)
  : Prop :=
  exists v, dict_get d k = Some v /\ P v.

Definition absent_or (P : value -> Prop) (d : list (string * value))
    (k : string) : Prop :=
  dict_get d k = None \/ present P d k.

(** The double a number of the input stands for. *)
Definition number_value (v : value) : option float :=
  match v with
  | VFloat f => Some f
  | VInt z => Some (float_of_int z)
  | _ => None
  end.

(** 0.0 <= f <= 1.0 *)
Definition in_unit_interval (f : float) : Prop :=
  PrimFloat.leb 0%float f = true /\ PrimFloat.leb f 1%float = true.

Definition well_formed_Compound (v : value) : Prop :=
  exists d, v = VDict d /\
    present is_str d "id" /\
    present is_str d "name" /\
    absent_or (none_or is_str) d "formula".

Definition well_formed_Reaction (v : value) : Prop :=
  exists d, v = VDict d /\
    present (list_where is_str) d "reactants" /\
    present (list_where is_str) d "products" /\
    absent_or (none_or (list_where is_str)) d "enzymes".

Definition confidence_within_bounds (v : value) : Prop :=
  exists f, number_value v = Some f /\ in_unit_interval f.

Definition well_formed_Metadata {datetime : Type}
    (datetime_of_value : value -> option datetime) (v : value) : Prop :=
  exists d, v = VDict d /\
    present is_str d "source" /\
    present confidence_within_bounds d "confidence" /\
    absent_or (fun t => is_Some (datetime_of_value t)) d "last_updated" /\
    absent_or is_str d "verification_status" /\
    absent_or (none_or is_str) d "llm_validation_notes".

(** Every required field is there with a value of its type, the
    confidence is a number within the bounds, and every optional field
    that is given has a value of its type. *)
Definition well_formed_Pathway {datetime : Type}
    (datetime_of_value : value -> option datetime)
    (d : list (string * value)) : Prop :=
  present is_str d "id" /\
  present is_str d "name" /\
  absent_or (none_or is_str) d "description" /\
  absent_or (list_where well_formed_Compound) d "compounds" /\
  absent_or (list_where well_formed_Reaction) d "reactions" /\
  present (well_formed_Metadata datetime_of_value) d "metadata" /\
  absent_or (list_where is_str) d "related_pathways".

End ModelTerms.

(* ===================================================================== *)
(** ** Concrete stores *)
(* ===================================================================== *)

Module Examples.
Import Database.

Definition clock0 (n : nat) : string :=
  match n with
  | 0 => "2024-05-01T09:00:00"
  | 1 => "2024-05-01T09:00:01"
  | _ => "2024-05-01T09:00:02"
  end.

(** An interpreter in which [json.dump] writes every document in full. *)
Definition writes_all (v : value) : option (exn * string) := None.

(** A working directory with nothing in it. *)
Definition empty_world : world := mkWorld ∅ ∅ ∅ clock0 0 [] writes_all.

(** The default [data_file]. *)
Definition default_file : path := ["data"; "metabolic_pathways.json"].

Definition glycolysis (id : string) (confidence : float) : value :=
  VDict [("name", VStr "Glycolysis"); ("id", VStr id);
         ("metadata",
          VDict [("source", VStr "KEGG"); ("confidence", VFloat confidence)])].

(** 0.9 and 0.2 as doubles. *)
Definition glycolysis_09 : value := glycolysis "GLY001" 0x1.ccccccccccccdp-1.
Definition glycolysis_02 : value := glycolysis "GLY001" 0x1.999999999999ap-3.

Definition document (entries : list value) : value :=
  VDict [("pathways", VList entries);
         ("last_updated", VStr "2024-04-30T18:00:00")].

Definition named_only (n : string) : value := VDict [("name", VStr n)].

(** The working directory with [data/] and the store file holding [t]. *)
Definition world_with (t : file_text) : world :=
  mkWorld {[ ["data"] ]} {[ default_file := t ]} ∅ clock0 0 [] writes_all.

(** A pathway input with the three required fields and a metadata of a
    source and a confidence. *)
Definition kegg_pathway (confidence : value) : list (string * value) :=
  [("id", VStr "GLY001"); ("name", VStr "Glycolysis");
   ("metadata", VDict [("source", VStr "KEGG"); ("confidence", confidence)])].

End Examples.

Import StoreTerms ModelTerms Examples.

(* ===================================================================== *)
(** ** Vocabulary and concrete inputs of the further properties *)
(* ===================================================================== *)

Module WorldTerms.


End WorldTerms.

Module DiscoveryTerms.
Import Discovery.

(** The pathways of [ps] that a store knowing the names [known] takes:
    the first of each name it does not know. *)
Fixpoint taken (known : list (option string)) (ps : list MetabolicPathway)
  : list MetabolicPathway :=
  match ps with
  | [] => []
  | p :: rest =>
      if decide (Some (name p) ∈ known) then taken known rest
      else p :: taken (known ++ [Some (name p)]) rest
  end.

(** The lines the store prints while [ps] are offered to it. *)
Fixpoint offered_lines (known : list (option string))
    (ps : list MetabolicPathway) : list line :=
  match ps with
  | [] => []
  | p :: rest =>
      if decide (Some (name p) ∈ known)
      then AlreadyExists (VStr (name p)) :: offered_lines known rest
      else AddingNew (VStr (name p))
             :: offered_lines (known ++ [Some (name p)]) rest
  end.

(** The names among those of [ps] that the store does not know, each
    counted once. *)
Definition new_names (known : list (option string))
    (ps : list MetabolicPathway) : list string :=
  remove_dups (filter (fun n => Some n ∉ known) (name <$> ps)).

End DiscoveryTerms.

Module ContextTerms.

(** The text the discovery tool gives the model for the names [ns]. *)
Definition context_text (ns : list string) : string :=
  match ns with
  | [] => "none"
  | _ :: _ => String.concat ", " ns
  end.

End ContextTerms.

Module ValidatorTerms.
Import Validator.

(** A dict that has the three fields the validator asks for, and a dict
    under ['metadata']. *)
Definition passes (d : list (string * value)) (md : list (string * value))
  : Prop :=
  Forall (fun k => is_Some (dict_get d k)) required_fields /\
  dict_get d "metadata" = Some (VDict md).

(** The dict the validator returns for a dict that passes. *)
Definition stamped (d md : list (string * value)) : list (string * value) :=
  dict_store "metadata"
    (VDict (dict_setitem "llm_validation_notes" (VStr "Basic validation passed")
              (dict_setitem "verification_status" (VStr "validated") md)))
    d.

End ValidatorTerms.

Module AgentTerms.
Import Models Agent.

(** A record that passes the constraint on [confidence] and whose
    timestamp is read back from its [str]. *)
Definition reads_back {datetime : Type}
    (datetime_of_value : value -> option datetime)
    (str_of_datetime : datetime -> string) (p : Pathway datetime) : Prop :=
  in_unit_interval (confidence (metadata p)) /\
  datetime_of_value (VStr (str_of_datetime (last_updated (metadata p))))
  = Some (last_updated (metadata p)).

(** Every key that is the id of a discovery has a number below the
    number of the collected pathways. *)
Definition ids_below_count {A : Type} (collected : list (string * A)) : Prop :=
  forall k, discovered_id k ∈ collected.*1 -> k < length collected.

End AgentTerms.

Module DiscoveryExamples.
Import Discovery.

Definition tca : MetabolicPathway :=
  mkMetabolicPathway "TCA cycle" "Oxidation of acetyl-CoA"
    ["Citrate"; "Isocitrate"] ["Citrate synthase"].

Definition tca_again : MetabolicPathway :=
  mkMetabolicPathway "TCA cycle" "Krebs cycle" ["Citrate"] [].

Definition glycolysis_again : MetabolicPathway :=
  mkMetabolicPathway "Glycolysis" "Glucose to pyruvate" ["Glucose"] [].

End DiscoveryExamples.

Module ContextExamples.

(** A store whose second entry has a number for a name. *)
Definition numbered : value :=
  document [named_only "Glycolysis"; VDict [("name", VInt 7)]].

End ContextExamples.

Module ValidatorExamples.

(** What the KEGG scraper returns for a page with a title and no
    compound (tools.py, lines 72 to 83). *)
Definition scraped_kegg : list (string * value) :=
  [("id", VStr "map00010"); ("name", VStr "Glycolysis");
   ("description", VStr ""); ("compounds", VList []); ("reactions", VList []);
   ("metadata",
    VDict [("source", VStr "KEGG");
           ("confidence", VFloat 0x1.ccccccccccccdp-1);
           ("verification_status", VStr "unverified")])].

Definition scraped_kegg_metadata : list (string * value) :=
  [("source", VStr "KEGG");
   ("confidence", VFloat 0x1.ccccccccccccdp-1);
   ("verification_status", VStr "unverified")].

End ValidatorExamples.

Module AgentExamples.
Import Models Agent.


Definition glucose : Compound := mkCompound "C00031" "Glucose" (Some "C6H12O6").

Definition hexokinase : Reaction :=
  mkReaction ["C00031"] ["C00668"] (Some ["EC:2.7.1.1"]).

Definition glycolysis_record (confidence : float) : Pathway string :=
  mkPathway string "GLY001" "Glycolysis" None [glucose] [hexokinase]
    (mkPathwayMetadata string "KEGG" confidence "2024-05-01 09:00:00"
       "validated" (Some "Basic validation passed"))
    ["GLU001"].

Definition tca_record : Pathway string :=
  mkPathway string "TCA001" "Citric acid cycle" (Some "Krebs cycle") [] []
    (mkPathwayMetadata string "WikiPathways" 0x1.b333333333333p-1
       "2024-05-01 09:00:01" "unverified" None)
    [].


End AgentExamples.

Import WorldTerms DiscoveryTerms ContextTerms ValidatorTerms AgentTerms.
Import DiscoveryExamples ContextExamples ValidatorExamples AgentExamples.

(* ===================================================================== *)
(** ** Lemmas on the store *)
(* ===================================================================== *)

Module StoreFacts.
Import Database.

(** *** Running the monad *)

Lemma bind_ok {S A B : Type} (m : M S A) (k : A -> M S B) s a s' :
  m s = (Ok a, s') -> bind m k s = k a s'.
Proof. intros H. unfold bind. now rewrite H. Qed.

Lemma bind_py {S A B : Type} (o : outcome A) (k : A -> M S B) s :
  bind (py o) k s = match o with Ok a => k a s | Raise e => (Raise e, s) end.
Proof. unfold bind, py. now destruct o. Qed.

Lemma bind_self {B : Type} (k : PathwayDatabase -> M obj B) db w :
  bind self k (db, w) = k db (db, w).
Proof. reflexivity. Qed.

Lemma bind_io_print {B : Type} (l : line) (k : unit -> M obj B) db w :
  bind (io (print l)) k (db, w) = k tt (db, logged l w).
Proof. reflexivity. Qed.

(** The first steps of the methods that go through the entries: [self],
    [self.pathways['pathways']], its iterator. *)
Ltac read_entries Hdoc :=
  rewrite bind_self, bind_py, Hdoc, bind_py; cbn [iterate].

(** *** Dicts *)

Lemma dict_get_store d k x y :
  dict_get d k = Some y -> dict_get (dict_store k x d) k = Some x.
Proof.
  induction d as [|[k' v] d IH]; simpl; [discriminate|].
  destruct (String.eqb k' k) eqn:E; simpl; rewrite E; auto.
Qed.

Lemma subscript_mutate_item v k x y :
  subscript v k = Ok y -> subscript (mutate_item v k x) k = Ok x.
Proof.
  destruct v; simpl; try discriminate.
  destruct (dict_get d k) eqn:E; [|discriminate].
  intros _. now rewrite (dict_get_store _ _ x _ E).
Qed.

Lemma str_name_subscript p s :
  str_name p = Some s <-> subscript p "name" = Ok (VStr s).
Proof.
  unfold str_name. destruct (subscript p "name") as [[]|]; split; congruence.
Qed.

Lemma nameless_subscript p :
  nameless p <-> subscript p "name" = Raise (KeyError "name").
Proof.
  split.
  - intros (d & -> & H). simpl. now rewrite H.
  - destruct p; simpl; try discriminate.
    destruct (dict_get d "name") eqn:E; [discriminate|].
    intros _. now exists d.
Qed.

(** *** The scan of [add_pathway] *)

(** On entries with string names, the scan for a string name [N] is the
    search of [N] among the names. *)
Lemma any_same_name_strings l pathway N :
  Forall str_named l ->
  str_name pathway = Some N ->
  any_same_name l pathway = Ok (bool_decide (Some N ∈ str_name <$> l)).
Proof.
  intros Hl HN. apply str_name_subscript in HN.
  induction Hl as [|p l [s Hp] _ IH]; [reflexivity|].
  pose proof Hp as Hp'. apply str_name_subscript in Hp'.
  cbn [any_same_name]. rewrite Hp', HN. cbn [py_eq].
  rewrite fmap_cons, Hp.
  destruct (String.eqb s N) eqn:E.
  - apply String.eqb_eq in E as ->.
    rewrite bool_decide_eq_true_2; [reflexivity|left].
  - rewrite IH. f_equal. apply bool_decide_ext.
    rewrite elem_of_cons. apply String.eqb_neq in E.
    split; [auto|]. intros [[= ->]|]; [contradiction|assumption].
Qed.

(** [add_pathway] on a store whose entries have string names, for an
    argument that has one: the argument joins the end of the list when its
    name is new, and the store stays as it is otherwise; one line is
    printed in both cases, and nothing is raised. *)
Lemma add_pathway_strings db w l pathway N :
  subscript (pathways db) "pathways" = Ok (VList l) ->
  Forall str_named l ->
  str_name pathway = Some N ->
  add_pathway pathway (db, w) =
    if bool_decide (Some N ∈ str_name <$> l)
    then (Ok tt, (db, logged (AlreadyExists (VStr N)) w))
    else (Ok tt, (appended db l pathway, logged (AddingNew (VStr N)) w)).
Proof.
  intros Hdoc Hl HN. unfold add_pathway.
  read_entries Hdoc.
  rewrite bind_py, (any_same_name_strings l pathway N Hl HN).
  apply str_name_subscript in HN.
  destruct (bool_decide _); cbn [negb].
  - rewrite bind_py, HN. reflexivity.
  - rewrite bind_py, HN, bind_io_print, bind_self, bind_py, Hdoc, bind_py.
    reflexivity.
Qed.

Lemma entries_appended db l0 l pathway :
  subscript (pathways db) "pathways" = Ok l0 ->
  subscript (pathways (appended db l pathway)) "pathways"
  = Ok (VList (l ++ [pathway])).
Proof.
  intros H. unfold appended. cbn [pathways]. eapply subscript_mutate_item, H.
Qed.

Lemma unique_names_snoc l pathway N :
  unique_names l ->
  str_name pathway = Some N ->
  Some N ∉ str_name <$> l ->
  unique_names (l ++ [pathway]).
Proof.
  unfold unique_names. intros Hu HN Hnew.
  rewrite fmap_app. apply NoDup_app. split; [assumption|]. split.
  - intros x Hx. cbn. rewrite HN. intros Hin%list_elem_of_singleton.
    now subst.
  - cbn. apply NoDup_singleton.
Qed.

Lemma filter_name_absent l N :
  Some N ∉ str_name <$> l ->
  filter (fun p => str_name p = Some N) l = [].
Proof.
  induction l as [|p l IH]; [reflexivity|].
  rewrite fmap_cons, not_elem_of_cons. intros [Hp Hl].
  rewrite filter_cons_False by congruence. auto.
Qed.

(** The scan passes over the entries that have another name. *)
Lemma any_same_name_skip pre rest pathway n :
  subscript pathway "name" = Ok n ->
  Forall (other_name n) pre ->
  any_same_name (pre ++ rest) pathway = any_same_name rest pathway.
Proof.
  intros Hn. induction 1 as [|p pre (a & Ha & Hne) _ IH]; [reflexivity|].
  cbn. now rewrite Ha, Hn, Hne.
Qed.

(** An argument without ['name'] makes the scan raise at its first step,
    whether the entry scanned has a name or not. *)
Lemma any_same_name_nameless_argument p l pathway :
  Forall is_dict (p :: l) ->
  nameless pathway ->
  any_same_name (p :: l) pathway = Raise (KeyError "name").
Proof.
  intros Hd Hp. apply nameless_subscript in Hp.
  apply Forall_cons in Hd as [[d ->] _]. cbn.
  destruct (dict_get d "name"); [|reflexivity].
  now rewrite Hp.
Qed.

End StoreFacts.

Module LoadFacts.
Import Database StoreFacts.

(** [mkdir(exist_ok=True)] on a directory that is there does nothing. *)
Lemma mkdir_exist_ok_present p w :
  is_dir w p = true -> mkdir_exist_ok p w = (Ok tt, w).
Proof.
  intros H. unfold mkdir_exist_ok, try_except, os_mkdir.
  rewrite H. cbn. now rewrite H.
Qed.




(** [_load_data] takes the decoded document as it is. *)
Lemma load_data_document p w doc :
  is_dir w p = false -> files w !! p = Some (JsonText doc) ->
  is_denied w p = false ->
  _load_data p w = (Ok doc, logged (LoadingFrom p) w).
Proof.
  intros Hd Hf Hr. unfold _load_data, try_except, bind, path_exists, open_read.
  unfold is_file.
  rewrite Hd, (bool_decide_eq_true_2 (is_Some _)) by (rewrite Hf; eauto).
  cbn. now rewrite Hd, Hf, Hr.
Qed.

Lemma init_loads p w doc :
  holds_document w p doc ->
  __init__ p w = (Ok (mkDB p doc), logged (LoadingFrom p) w).
Proof.
  intros (Hpar & Hd & Hf & Hr). unfold __init__.
  rewrite (bind_ok _ _ _ _ _ (mkdir_exist_ok_present _ _ Hpar)).
  rewrite (bind_ok _ _ _ _ _ (load_data_document _ _ _ Hd Hf Hr)).
  reflexivity.
Qed.

Lemma load_data_absent p w :
  is_dir w p = false -> files w !! p = None ->
  _load_data p w = (Ok (empty_structure (clock w (ticks w))), ticked w).
Proof.
  intros Hd Hf. unfold _load_data, try_except, bind, path_exists.
  unfold is_file. rewrite Hd, Hf.
  rewrite bool_decide_eq_false_2 by (intros [? [=]]). reflexivity.
Qed.

Lemma load_data_directory p w :
  is_dir w p = true ->
  _load_data p w
  = (Ok (empty_structure (clock w (ticks w))),
     ticked (logged (ErrorLoadingFile (IsADirectoryError p)) w)).
Proof.
  intros Hd. unfold _load_data, try_except, bind, path_exists, open_read.
  rewrite Hd. cbn. now rewrite Hd.
Qed.

Lemma load_data_denied p w t :
  is_dir w p = false -> files w !! p = Some t -> is_denied w p = true ->
  _load_data p w
  = (Ok (empty_structure (clock w (ticks w))),
     ticked (logged (ErrorLoadingFile (PermissionError p)) w)).
Proof.
  intros Hd Hf Hr. unfold _load_data, try_except, bind, path_exists, open_read.
  unfold is_file.
  rewrite Hd, (bool_decide_eq_true_2 (is_Some _)) by (rewrite Hf; eauto).
  cbn. now rewrite Hd, Hf, Hr.
Qed.

Lemma load_data_not_json p w s :
  is_dir w p = false -> files w !! p = Some (NotJson s) ->
  is_denied w p = false ->
  _load_data p w
  = (Ok (empty_structure (clock w (ticks w))),
     ticked (logged (ErrorLoadingJSON JSONDecodeError)
               (logged (LoadingFrom p) w))).
Proof.
  intros Hd Hf Hr. unfold _load_data, try_except, bind, path_exists, open_read.
  unfold is_file.
  rewrite Hd, (bool_decide_eq_true_2 (is_Some _)) by (rewrite Hf; eauto).
  cbn. now rewrite Hd, Hf, Hr.
Qed.

(** The part of the world that reading looks at. *)
Lemma is_denied_ext w w' p :
  denied w' = denied w -> is_denied w' p = is_denied w p.
Proof. unfold is_denied. now intros ->. Qed.

(** *** The list comprehension of [get_known_pathways] *)

Lemma names_of_named l :
  Forall (fun p => exists n, subscript p "name" = Ok n) l ->
  exists ns, names_of l = Ok ns /\
             Forall2 (fun p n => subscript p "name" = Ok n) l ns.
Proof.
  induction 1 as [|p l [n Hn] _ (ns & Hns & IH)].
  - exists []. split; [reflexivity|constructor].
  - exists (n :: ns). cbn. rewrite Hn, Hns. split; [reflexivity|].
    constructor; assumption.
Qed.

Lemma get_known_pathways_list db w l ns :
  subscript (pathways db) "pathways" = Ok (VList l) ->
  names_of l = Ok ns ->
  get_known_pathways (db, w) = (Ok ns, (db, w)).
Proof.
  intros Hdoc Hns. unfold get_known_pathways.
  read_entries Hdoc.
  unfold py. now rewrite Hns.
Qed.

Lemma names_of_snoc l ns pathway n :
  names_of l = Ok ns ->
  subscript pathway "name" = Ok n ->
  names_of (l ++ [pathway]) = Ok (ns ++ [n]).
Proof.
  revert ns. induction l as [|p l IH]; intros ns.
  - intros [= <-] Hn. cbn. now rewrite Hn.
  - cbn. destruct (subscript p "name") as [a|]; [|discriminate].
    destruct (names_of l) as [ns'|]; [|discriminate].
    intros [= <-] Hn. now rewrite (IH ns' eq_refl Hn).
Qed.

End LoadFacts.

Module SaveFacts.
Import Database StoreFacts LoadFacts.

(** [save], step by step: the subscript, the clock, the file, the count. *)
Lemma save_run db w :
  save (db, w) =
    match subscript (pathways db) "pathways" with
    | Raise e => (Raise e, (db, logged (ErrorSaving e) w))
    | Ok lst =>
        match write_error w (data_file db) with
        | Some e => (Raise e, (db, logged (ErrorSaving e) (ticked w)))
        | None =>
            let data := saved_document lst (clock w (ticks w)) in
            match refused w data with
            | Some (e, text) =>
                (Raise e,
                 (db, logged (ErrorSaving e) (truncated (data_file db) text w)))
            | None =>
                let w' := written (data_file db) data w in
                match len lst with
                | Ok n => (Ok tt, (db, logged (Saved n (data_file db)) w'))
                | Raise e => (Raise e, (db, logged (ErrorSaving e) w'))
                end
            end
        end
    end.
Proof.
  unfold save, try_except.
  rewrite bind_self, bind_py.
  destruct (subscript (pathways db) "pathways") as [lst|e] eqn:Hsub;
    [|reflexivity].
  unfold bind at 1. cbn [io now_isoformat fst snd].
  unfold bind at 1. unfold io at 1, open_write. cbn [fst snd].
  change (write_error (ticked w) (data_file db))
    with (write_error w (data_file db)).
  destruct (write_error w (data_file db)) as [e|]; [reflexivity|].
  unfold bind at 1. unfold io at 1, json_dump.
  cbn [fst snd with_files files refused ticked]. cbv zeta.
  unfold saved_document.
  destruct (refused w _) as [[e text]|].
  { unfold truncated. cbn [fst snd with_files files ticked].
    now rewrite insert_insert_eq. }
  rewrite insert_insert_eq, bind_self, bind_py, Hsub, bind_py.
  destruct (len lst) as [n|e]; reflexivity.
Qed.



End SaveFacts.

(* ===================================================================== *)
(** ** Lemmas on the record model *)
(* ===================================================================== *)

Module ModelFacts.
Import Models.
Local Open Scope validation_scope.

(** *** The combinators *)

Lemma is_valid_ap {A B : Type} (f : validation (A -> B)) (x : validation A) :
  is_valid (f <*> x) = is_valid f && is_valid x.
Proof. now destruct f, x. Qed.

Lemma errors_ap {A B : Type} (f : validation (A -> B)) (x : validation A) :
  errors (f <*> x) = errors f ++ errors x.
Proof. now destruct f, x. Qed.

Lemma ap_valid {A B : Type} (f : validation (A -> B)) (x : validation A) b :
  f <*> x = Valid b -> exists g a, f = Valid g /\ x = Valid a /\ b = g a.
Proof. destruct f, x; try discriminate. intros [= <-]. eauto. Qed.

Lemma is_valid_true {A : Type} (r : validation A) :
  is_valid r = true -> exists a, r = Valid a.
Proof. destruct r; [eauto|discriminate]. Qed.

Lemma is_valid_false {A : Type} (r : validation A) :
  is_valid r = false -> exists es, r = Invalid es.
Proof. destruct r; [discriminate|eauto]. Qed.

Lemma is_valid_at_loc {A : Type} l (r : validation A) :
  is_valid (at_loc l r) = is_valid r.
Proof. now destruct r. Qed.

Lemma required_missing {A : Type} d k (f : value -> validation A) :
  dict_get d k = None -> required d k f = Invalid [([Field k], missing)].
Proof. unfold required. now intros ->. Qed.

Lemma required_present {A : Type} (P : value -> Prop) d k
    (f : value -> validation A) :
  present P d k -> (forall v, P v -> is_valid (f v) = true) ->
  is_valid (required d k f) = true.
Proof.
  intros (v & Hv & HP) Hf. unfold required. rewrite Hv, is_valid_at_loc. auto.
Qed.

Lemma with_default_absent_or {A : Type} (P : value -> Prop) d k (a : A)
    (f : value -> validation A) :
  absent_or P d k -> (forall v, P v -> is_valid (f v) = true) ->
  is_valid (with_default d k a f) = true.
Proof.
  intros [Hnone|(v & Hv & HP)] Hf; unfold with_default.
  - now rewrite Hnone.
  - rewrite Hv, is_valid_at_loc. auto.
Qed.

Lemma required_refused {A : Type} d k (f : value -> validation A) v :
  dict_get d k = Some v -> is_valid (f v) = false ->
  is_valid (required d k f) = false.
Proof. intros Hv Hbad. unfold required. now rewrite Hv, is_valid_at_loc. Qed.

Lemma with_default_refused {A : Type} d k (a : A) (f : value -> validation A) v :
  dict_get d k = Some v -> is_valid (f v) = false ->
  is_valid (with_default d k a f) = false.
Proof. intros Hv Hbad. unfold with_default. now rewrite Hv, is_valid_at_loc. Qed.

Lemma str_is_str v : is_str v -> is_valid (str v) = true.
Proof. now intros [s ->]. Qed.

Lemma optional_none_or {A : Type} (P : value -> Prop)
    (f : value -> validation A) v :
  (forall v, P v -> is_valid (f v) = true) ->
  none_or P v -> is_valid (optional f v) = true.
Proof.
  intros Hf [->|HP]; [reflexivity|].
  specialize (Hf v HP). unfold optional.
  destruct v; try reflexivity; now destruct (f _).
Qed.

Lemma is_valid_items_from {A : Type} (f : value -> validation A) i l :
  is_valid (items_from f i l) = forallb (fun v => is_valid (f v)) l.
Proof.
  revert i. induction l as [|v l IH]; intros i; [reflexivity|].
  cbn [items_from forallb]. rewrite !is_valid_ap, is_valid_at_loc, IH.
  reflexivity.
Qed.

Lemma list_of_list_where {A : Type} (P : value -> Prop)
    (f : value -> validation A) v :
  (forall v, P v -> is_valid (f v) = true) ->
  list_where P v -> is_valid (list_of f v) = true.
Proof.
  intros Hf (l & -> & Hl). cbn [list_of]. rewrite is_valid_items_from.
  apply forallb_forall. intros x Hx.
  apply Hf. rewrite List.Forall_forall in Hl. auto.
Qed.

(** A list with an item the validator refuses is refused. *)
Lemma list_of_refused {A : Type} (f : value -> validation A) l x :
  In x l -> is_valid (f x) = false -> is_valid (list_of f (VList l)) = false.
Proof.
  intros Hx Hbad. cbn [list_of]. rewrite is_valid_items_from.
  destruct (forallb _ l) eqn:E; [|reflexivity].
  rewrite forallb_forall in E. rewrite (E x Hx) in Hbad. discriminate.
Qed.

(** *** The nested models *)

Lemma construct_Compound_well_formed v :
  well_formed_Compound v -> is_valid (model construct_Compound v) = true.
Proof.
  intros (d & -> & Hid & Hname & Hformula). cbn [model].
  unfold construct_Compound. rewrite !is_valid_ap. cbn [is_valid andb].
  rewrite (required_present is_str d "id" str Hid str_is_str),
    (required_present is_str d "name" str Hname str_is_str),
    (with_default_absent_or (none_or is_str) d "formula" None (optional str)
       Hformula (fun v => optional_none_or is_str str v str_is_str)).
  reflexivity.
Qed.

Lemma construct_Reaction_well_formed v :
  well_formed_Reaction v -> is_valid (model construct_Reaction v) = true.
Proof.
  intros (d & -> & Hin & Hout & Henz). cbn [model].
  unfold construct_Reaction. rewrite !is_valid_ap. cbn [is_valid andb].
  pose proof (fun v => list_of_list_where is_str str v str_is_str) as Hstrs.
  rewrite (required_present (list_where is_str) d "reactants" _ Hin Hstrs),
    (required_present (list_where is_str) d "products" _ Hout Hstrs),
    (with_default_absent_or (none_or (list_where is_str)) d "enzymes" _ _
       Henz (fun v => optional_none_or (list_where is_str) _ v Hstrs)).
  reflexivity.
Qed.

Lemma construct_Compound_missing d k :
  k = "id" \/ k = "name" -> dict_get d k = None ->
  is_valid (model construct_Compound (VDict d)) = false.
Proof.
  intros Hk Hnone. cbn [model]. unfold construct_Compound.
  rewrite !is_valid_ap.
  destruct Hk as [-> | ->]; rewrite (required_missing _ _ _ Hnone); cbn;
    [reflexivity|]. now rewrite andb_false_r.
Qed.

Lemma construct_Reaction_missing d k :
  k = "reactants" \/ k = "products" -> dict_get d k = None ->
  is_valid (model construct_Reaction (VDict d)) = false.
Proof.
  intros Hk Hnone. cbn [model]. unfold construct_Reaction.
  rewrite !is_valid_ap.
  destruct Hk as [-> | ->]; rewrite (required_missing _ _ _ Hnone); cbn;
    [reflexivity|]. now rewrite andb_false_r.
Qed.

(** *** Metadata and pathway *)

(** The example that [Pathway.Config] documents is accepted. *)
Lemma schema_example_accepted :
  is_valid (construct_Pathway (fun _ => None) unit (fun _ => None) tt
              schema_example) = true.
Proof. reflexivity. Qed.

Section Metadata.

Context (float_of_str : string -> option float) {datetime : Type}
        (datetime_of_value : value -> option datetime) (now : datetime).

Local Abbreviation construct_md :=
  (construct_PathwayMetadata float_of_str datetime datetime_of_value now).
Local Abbreviation construct :=
  (construct_Pathway float_of_str datetime datetime_of_value now).
Local Abbreviation well_formed_md := (well_formed_Metadata datetime_of_value).
Local Abbreviation well_formed := (well_formed_Pathway datetime_of_value).

Lemma float_input_number v f :
  number_value v = Some f -> float_input float_of_str v = Valid f.
Proof. destruct v; cbn; congruence. Qed.

Lemma confidence_float_within v :
  confidence_within_bounds v ->
  is_valid (confidence_float float_of_str v) = true.
Proof.
  intros (f & Hf & H0 & H1). unfold confidence_float.
  now rewrite (float_input_number v f Hf), H0, H1.
Qed.

Lemma confidence_float_outside v f :
  number_value v = Some f -> ~ in_unit_interval f ->
  is_valid (confidence_float float_of_str v) = false.
Proof.
  intros Hf Hout. unfold confidence_float.
  rewrite (float_input_number v f Hf).
  destruct (PrimFloat.leb 0 f) eqn:H0; [|reflexivity].
  destruct (PrimFloat.leb f 1) eqn:H1; [|reflexivity].
  exfalso. apply Hout. now split.
Qed.

Lemma confidence_float_valid v f :
  confidence_float float_of_str v = Valid f -> in_unit_interval f.
Proof.
  unfold confidence_float.
  destruct (float_input float_of_str v) as [g|]; [|discriminate].
  destruct (PrimFloat.leb 0 g) eqn:H0; [|discriminate].
  destruct (PrimFloat.leb g 1) eqn:H1; [|discriminate].
  cbn. intros [= <-]. now split.
Qed.

Lemma datetime_input_some v :
  is_Some (datetime_of_value v) ->
  is_valid (datetime_input datetime datetime_of_value v) = true.
Proof. intros [t Ht]. unfold datetime_input. now rewrite Ht. Qed.

Lemma construct_md_well_formed v :
  well_formed_md v -> is_valid (model construct_md v) = true.
Proof.
  intros (d & -> & Hsrc & Hconf & Hts & Hstatus & Hnotes). cbn [model].
  unfold construct_PathwayMetadata. rewrite !is_valid_ap. cbn [is_valid andb].
  rewrite (required_present is_str d "source" str Hsrc str_is_str),
    (required_present confidence_within_bounds d "confidence" _ Hconf
       confidence_float_within),
    (with_default_absent_or _ d "last_updated" _ _ Hts datetime_input_some),
    (with_default_absent_or is_str d "verification_status" _ _ Hstatus
       str_is_str),
    (with_default_absent_or (none_or is_str) d "llm_validation_notes" _ _
       Hnotes (fun v => optional_none_or is_str str v str_is_str)).
  reflexivity.
Qed.

(** The errors of a model that misses ['source'] or ['confidence']. *)
Lemma construct_md_missing d k :
  k = "source" \/ k = "confidence" -> dict_get d k = None ->
  In ([Field k], missing) (errors (construct_md d)).
Proof.
  intros Hk Hnone. unfold construct_PathwayMetadata. rewrite !errors_ap.
  destruct Hk as [-> | ->]; rewrite (required_missing _ _ _ Hnone);
    cbn [errors]; rewrite !in_app_iff; cbn; auto 10.
Qed.

Lemma construct_md_confidence_outside d c f :
  dict_get d "confidence" = Some c ->
  number_value c = Some f -> ~ in_unit_interval f ->
  is_valid (construct_md d) = false.
Proof.
  intros Hc Hf Hout. unfold construct_PathwayMetadata. rewrite !is_valid_ap.
  rewrite (required_refused d "confidence" _ c Hc
             (confidence_float_outside c f Hf Hout)).
  now rewrite andb_false_r.
Qed.

Lemma construct_md_valid d m :
  construct_md d = Valid m -> in_unit_interval (confidence m).
Proof.
  unfold construct_PathwayMetadata.
  intros (g4 & notes & H4 & _ & ->)%ap_valid.
  apply ap_valid in H4 as (g3 & status & H3 & _ & ->).
  apply ap_valid in H3 as (g2 & ts & H2 & _ & ->).
  apply ap_valid in H2 as (g1 & c & H1 & Hc & ->).
  apply ap_valid in H1 as (g0 & src & [= <-] & _ & ->).
  cbn [confidence]. unfold required in Hc.
  destruct (dict_get d "confidence") as [v|]; [|discriminate].
  destruct (confidence_float float_of_str v) as [f|] eqn:E; [|discriminate].
  cbn in Hc. injection Hc as <-. eapply confidence_float_valid, E.
Qed.

Lemma required_str_valid d k s :
  required d k str = Valid s -> dict_get d k = Some (VStr s).
Proof.
  unfold required. destruct (dict_get d k) as [v|]; [|discriminate].
  destruct v; cbn; try discriminate. now intros [= ->].
Qed.

Lemma errors_at_loc {A : Type} l (r : validation A) e :
  In e (errors r) -> In (l :: fst e, snd e) (errors (at_loc l r)).
Proof.
  destruct r as [a|es]; [contradiction|]. cbn.
  apply (in_map (fun e => (l :: fst e, snd e))).
Qed.

Lemma errors_invalid {A : Type} (r : validation A) e :
  In e (errors r) -> exists errs, r = Invalid errs /\ In e errs.
Proof. destruct r as [a|es]; [contradiction|]. eauto. Qed.

(** The validity of a pathway is that of its seven fields. *)
Lemma is_valid_construct d :
  is_valid (construct d) =
    is_valid (required d "id" str) &&
    is_valid (required d "name" str) &&
    is_valid (with_default d "description" None (optional str)) &&
    is_valid (with_default d "compounds" [] (list_of (model construct_Compound))) &&
    is_valid (with_default d "reactions" [] (list_of (model construct_Reaction))) &&
    is_valid (required d "metadata" (model construct_md)) &&
    is_valid (with_default d "related_pathways" [] (list_of str)).
Proof. unfold construct_Pathway. now rewrite !is_valid_ap. Qed.

Lemma errors_construct d :
  errors (construct d) =
    errors (required d "id" str) ++
    errors (required d "name" str) ++
    errors (with_default d "description" None (optional str)) ++
    errors (with_default d "compounds" [] (list_of (model construct_Compound))) ++
    errors (with_default d "reactions" [] (list_of (model construct_Reaction))) ++
    errors (required d "metadata" (model construct_md)) ++
    errors (with_default d "related_pathways" [] (list_of str)).
Proof.
  unfold construct_Pathway. rewrite !errors_ap. cbn [errors app].
  now rewrite <- !app_assoc.
Qed.

Lemma construct_missing d k :
  k = "id" \/ k = "name" \/ k = "metadata" -> dict_get d k = None ->
  In ([Field k], missing) (errors (construct d)).
Proof.
  intros Hk Hnone. rewrite errors_construct.
  destruct Hk as [-> | [-> | ->]]; rewrite (required_missing _ _ _ Hnone);
    cbn [errors]; rewrite !in_app_iff; cbn; auto 10.
Qed.

Lemma construct_metadata_missing d md k :
  dict_get d "metadata" = Some (VDict md) ->
  k = "source" \/ k = "confidence" -> dict_get md k = None ->
  In ([Field "metadata"; Field k], missing) (errors (construct d)).
Proof.
  intros Hmd Hk Hnone. rewrite errors_construct, !in_app_iff.
  do 5 right. left. unfold required. rewrite Hmd. cbn [model].
  apply (errors_at_loc (Field "metadata") _ ([Field k], missing)).
  now apply construct_md_missing.
Qed.

Lemma construct_confidence_outside d md c f :
  dict_get d "metadata" = Some (VDict md) ->
  dict_get md "confidence" = Some c ->
  number_value c = Some f -> ~ in_unit_interval f ->
  is_valid (construct d) = false.
Proof.
  intros Hmd Hc Hf Hout. rewrite is_valid_construct.
  rewrite (required_refused d "metadata" _ _ Hmd
             (construct_md_confidence_outside md c f Hc Hf Hout)).
  now rewrite andb_false_r.
Qed.

Lemma construct_compound_missing d cs cd k :
  dict_get d "compounds" = Some (VList cs) -> In (VDict cd) cs ->
  k = "id" \/ k = "name" -> dict_get cd k = None ->
  is_valid (construct d) = false.
Proof.
  intros Hcs Hin Hk Hnone. rewrite is_valid_construct.
  rewrite (with_default_refused d "compounds" _ _ _ Hcs
             (list_of_refused _ cs _ Hin (construct_Compound_missing cd k Hk Hnone))).
  now rewrite !andb_false_r.
Qed.

Lemma construct_reaction_missing d rs rd k :
  dict_get d "reactions" = Some (VList rs) -> In (VDict rd) rs ->
  k = "reactants" \/ k = "products" -> dict_get rd k = None ->
  is_valid (construct d) = false.
Proof.
  intros Hrs Hin Hk Hnone. rewrite is_valid_construct.
  rewrite (with_default_refused d "reactions" _ _ _ Hrs
             (list_of_refused _ rs _ Hin (construct_Reaction_missing rd k Hk Hnone))).
  now rewrite !andb_false_r.
Qed.

Lemma construct_well_formed d :
  well_formed d -> is_valid (construct d) = true.
Proof.
  intros (Hid & Hname & Hdesc & Hcs & Hrs & Hmd & Hrel).
  rewrite is_valid_construct.
  rewrite (required_present is_str d "id" str Hid str_is_str),
    (required_present is_str d "name" str Hname str_is_str),
    (with_default_absent_or (none_or is_str) d "description" _ _ Hdesc
       (fun v => optional_none_or is_str str v str_is_str)),
    (with_default_absent_or _ d "compounds" _ _ Hcs
       (fun v => list_of_list_where well_formed_Compound _ v
                   construct_Compound_well_formed)),
    (with_default_absent_or _ d "reactions" _ _ Hrs
       (fun v => list_of_list_where well_formed_Reaction _ v
                   construct_Reaction_well_formed)),
    (required_present well_formed_md d "metadata" _ Hmd
       construct_md_well_formed),
    (with_default_absent_or _ d "related_pathways" _ _ Hrel
       (fun v => list_of_list_where is_str str v str_is_str)).
  reflexivity.
Qed.

(** What a constructed record says about the input it was made from. *)
Lemma construct_valid d p :
  construct d = Valid p ->
  dict_get d "id" = Some (VStr (id p)) /\
  dict_get d "name" = Some (VStr (name p)) /\
  in_unit_interval (confidence (metadata p)).
Proof.
  unfold construct_Pathway.
  intros (g6 & rel & H6 & _ & ->)%ap_valid.
  apply ap_valid in H6 as (g5 & md & H5 & Hmd & ->).
  apply ap_valid in H5 as (g4 & rs & H4 & _ & ->).
  apply ap_valid in H4 as (g3 & cs & H3 & _ & ->).
  apply ap_valid in H3 as (g2 & desc & H2 & _ & ->).
  apply ap_valid in H2 as (g1 & nm & H1 & Hname & ->).
  apply ap_valid in H1 as (g0 & i & [= <-] & Hid & ->).
  cbn [id name metadata]. split; [|split].
  - now apply required_str_valid.
  - now apply required_str_valid.
  - unfold required in Hmd.
    destruct (dict_get d "metadata") as [v|]; [|discriminate].
    destruct v as [| | | | |l|md']; try discriminate Hmd. cbn [model] in Hmd.
    destruct (construct_md md') as [m|] eqn:E; [|discriminate].
    cbn in Hmd. injection Hmd as <-. eapply construct_md_valid, E.
Qed.

End Metadata.

End ModelFacts.

Import StoreFacts LoadFacts SaveFacts ModelFacts.

(* ===================================================================== *)
(** ** The store: insertion *)
(* ===================================================================== *)

(** C1, as stated, fails on a store that already holds an entry named N:
    the store file of an earlier run has a pathway called Glycolysis, and
    adding two more dictionaries with that name leaves the old entry, which
    is neither of them. *)
Lemma add_pathway_name_already_taken :
  let old := glycolysis "map00010" 1 in
  let db := mkDB default_file (document [old]) in
  let run := (let* _ := add_pathway glycolysis_09 in add_pathway glycolysis_02)
               (db, empty_world) in
  fst run = Ok tt /\
  fst (snd run) = db /\
  stdout (snd (snd run))
    = [AlreadyExists (VStr "Glycolysis"); AlreadyExists (VStr "Glycolysis")] /\
  filter (fun p => str_name p = Some "Glycolysis") [old] = [old] /\
  old <> glycolysis_09.
Proof. cbv zeta. repeat split; try reflexivity. discriminate. Qed.

(** C1 (amended): on every store whose entries all carry a string name,
    [add_pathway] of a dictionary named N never raises; it appends the
    dictionary when no entry is named N (exact, case-sensitive match) and
    otherwise only prints that the pathway exists, without overwriting; so
    names stay unique over every call.  When no entry is named N before,
    adding d1 and then d2, both named N, leaves exactly one entry named N,
    and it is d1. *)
Theorem add_pathway_first_version_wins
    (db : PathwayDatabase) (w : world) (l : list value) :
  subscript (pathways db) "pathways" = Ok (VList l) ->
  Forall str_named l ->
  (forall pathway N, str_name pathway = Some N ->
     exists db' l',
       subscript (pathways db') "pathways" = Ok (VList l') /\
       (Some N ∈ str_name <$> l ->
          add_pathway pathway (db, w)
            = (Ok tt, (db', logged (AlreadyExists (VStr N)) w)) /\
          db' = db /\ l' = l) /\
       (Some N ∉ str_name <$> l ->
          add_pathway pathway (db, w)
            = (Ok tt, (db', logged (AddingNew (VStr N)) w)) /\
          l' = l ++ [pathway]) /\
       (unique_names l -> unique_names l')) /\
  (forall d1 d2 N,
     str_name d1 = Some N -> str_name d2 = Some N ->
     Some N ∉ str_name <$> l ->
     exists db',
       (let* _ := add_pathway d1 in add_pathway d2) (db, w)
         = (Ok tt, (db', logged (AlreadyExists (VStr N))
                           (logged (AddingNew (VStr N)) w))) /\
       subscript (pathways db') "pathways" = Ok (VList (l ++ [d1])) /\
       filter (fun p => str_name p = Some N) (l ++ [d1]) = [d1]).
Proof.
  intros Hdoc Hl. split.
  - intros pathway N HN.
    pose proof (add_pathway_strings db w l pathway N Hdoc Hl HN) as Hadd.
    destruct (decide (Some N ∈ str_name <$> l)) as [Hin|Hout].
    + rewrite bool_decide_eq_true_2 in Hadd by assumption.
      exists db, l. split; [assumption|]. split; [auto|].
      split; [intros; contradiction|auto].
    + rewrite bool_decide_eq_false_2 in Hadd by assumption.
      exists (appended db l pathway), (l ++ [pathway]).
      split; [eapply entries_appended, Hdoc|].
      split; [intros; contradiction|].
      split; [auto|]. intros Hu. eapply unique_names_snoc; eassumption.
  - intros d1 d2 N H1 H2 Hout.
    exists (appended db l d1).
    assert (Hdoc' := entries_appended db _ l d1 Hdoc).
    assert (Hl' : Forall str_named (l ++ [d1])).
    { apply Forall_app. split; [assumption|]. repeat constructor. now exists N. }
    split; [|split; [assumption|]].
    + erewrite bind_ok.
      2:{ rewrite (add_pathway_strings db w l d1 N Hdoc Hl H1).
          now rewrite bool_decide_eq_false_2 by assumption. }
      rewrite (add_pathway_strings _ _ _ d2 N Hdoc' Hl' H2).
      rewrite bool_decide_eq_true_2; [reflexivity|].
      rewrite fmap_app, elem_of_app. right. cbn. rewrite H1. left.
    + rewrite filter_app, (filter_name_absent l N Hout).
      now rewrite filter_cons_True by assumption.
Qed.

(** The end-to-end scenario of the specification: on the empty store,
    Glycolysis is added with confidence 0.9, then again with 0.2. *)
Lemma add_pathway_first_version_wins_scenario :
  let db := mkDB default_file (empty_structure "2024-04-30T18:00:00") in
  exists db',
    (let* _ := add_pathway glycolysis_09 in add_pathway glycolysis_02)
      (db, empty_world)
    = (Ok tt, (db', logged (AlreadyExists (VStr "Glycolysis"))
                      (logged (AddingNew (VStr "Glycolysis")) empty_world))) /\
    subscript (pathways db') "pathways" = Ok (VList [glycolysis_09]) /\
    filter (fun p => str_name p = Some "Glycolysis") [glycolysis_09]
    = [glycolysis_09].
Proof.
  cbv zeta.
  refine (proj2 (add_pathway_first_version_wins
                   (mkDB default_file (empty_structure "2024-04-30T18:00:00"))
                   empty_world [] _ _)
                glycolysis_09 glycolysis_02 "Glycolysis" _ _ _).
  - reflexivity.
  - constructor.
  - reflexivity.
  - reflexivity.
  - cbn. apply not_elem_of_nil.
Defined.

(* ===================================================================== *)
(** ** The store: the names accessor *)
(* ===================================================================== *)

(** C2, as stated, fails on a store whose document is not a list of named
    pathways: the store built from a file that holds the JSON document
    [{}] has no ['pathways'], and [get_known_pathways] raises
    [KeyError('pathways')]; on a store whose second pathway has an id and
    no name, it raises [KeyError('name')]. *)
Lemma get_known_pathways_raises_without_names :
  let w := world_with (JsonText (VDict [])) in
  let db := mkDB default_file (VDict []) in
  __init__ default_file w = (Ok db, logged (LoadingFrom default_file) w) /\
  get_known_pathways (db, logged (LoadingFrom default_file) w)
    = (Raise (KeyError "pathways"), (db, logged (LoadingFrom default_file) w)) /\
  fst (get_known_pathways
         (mkDB default_file
            (document [named_only "A"; VDict [("id", VStr "B")]]),
          empty_world))
    = Raise (KeyError "name").
Proof. cbv zeta. repeat split; reflexivity. Qed.

(** C2 (amended): on a store whose document has a list under ['pathways']
    every entry of which has a ['name'], [get_known_pathways] returns the
    names of the stored pathways in the order of the list: the n-th name
    returned is the name of the n-th entry; an entry that [add_pathway]
    appends gets the last place; and the store built from a file holds the
    entries in the order of the file, so that a document with pathways
    named A, B, C gives [A; B; C]. *)
Theorem get_known_pathways_in_order (doc : value) (l : list value) :
  subscript doc "pathways" = Ok (VList l) ->
  Forall (fun p => exists n, subscript p "name" = Ok n) l ->
  exists ns,
    Forall2 (fun p n => subscript p "name" = Ok n) l ns /\
    (forall db w,
       pathways db = doc ->
       get_known_pathways (db, w) = (Ok ns, (db, w))) /\
    (forall p w,
       holds_document w p doc ->
       exists db w',
         __init__ p w = (Ok db, w') /\
         get_known_pathways (db, w') = (Ok ns, (db, w'))) /\
    (forall db w pathway N,
       pathways db = doc ->
       Forall str_named l ->
       str_name pathway = Some N ->
       Some N ∉ str_name <$> l ->
       exists db' w',
         add_pathway pathway (db, w) = (Ok tt, (db', w')) /\
         get_known_pathways (db', w') = (Ok (ns ++ [VStr N]), (db', w'))).
Proof.
  intros Hdoc Hl. destruct (names_of_named l Hl) as (ns & Hns & Hall).
  exists ns. split; [assumption|]. split; [|split].
  - intros db w <-. now apply get_known_pathways_list with l.
  - intros p w Hfile. eexists _, _. split; [apply init_loads, Hfile|].
    now apply get_known_pathways_list with l.
  - intros db w pathway N <- Hstr HN Hnew.
    eexists _, _. split.
    + rewrite (add_pathway_strings db w l pathway N Hdoc Hstr HN).
      now rewrite bool_decide_eq_false_2 by assumption.
    + apply get_known_pathways_list with (l ++ [pathway]).
      * eapply entries_appended, Hdoc.
      * apply names_of_snoc; [assumption|]. now apply str_name_subscript.
Qed.

(** The document with pathways A, B, C, read from the store file. *)
Lemma get_known_pathways_in_order_ABC :
  let doc := document [named_only "A"; named_only "B"; named_only "C"] in
  exists db w',
    __init__ default_file (world_with (JsonText doc)) = (Ok db, w') /\
    get_known_pathways (db, w') = (Ok [VStr "A"; VStr "B"; VStr "C"], (db, w')).
Proof.
  cbv zeta.
  destruct (get_known_pathways_in_order
              (document [named_only "A"; named_only "B"; named_only "C"])
              [named_only "A"; named_only "B"; named_only "C"])
    as (ns & Hns & _ & Hload & _).
  - reflexivity.
  - repeat constructor; eexists; reflexivity.
  - assert (ns = [VStr "A"; VStr "B"; VStr "C"]) as ->.
    { repeat match goal with
             | H : Forall2 _ _ _ |- _ => inversion H; clear H; subst
             end.
      repeat match goal with
             | H : subscript _ _ = Ok _ |- _ => cbn in H; injection H as <-
             end.
      reflexivity. }
    apply (Hload default_file). repeat split; reflexivity.
Defined.

(* ===================================================================== *)
(** ** The discovery tool: the known pathways *)
(* ===================================================================== *)

(** C3 at the store of one pathway named Glycolysis: the names go to the
    prompt as they are stored; the lower-cased set is what the first
    definition of [get_known_pathways], replaced by the second, computes. *)
Lemma discovery_context_keeps_case :
  let db := mkDB default_file (document [named_only "Glycolysis"]) in
  fst (Tools._run_known_pathways (db, empty_world))
    = Ok ([VStr "Glycolysis"], "Glycolysis") /\
  lower "Glycolysis" = "glycolysis" /\
  fst (get_known_pathways_shadowed (db, empty_world)) = Ok {[ "glycolysis" ]}.
Proof.
  cbv zeta. repeat split; reflexivity.
Qed.

(* ===================================================================== *)
(** ** The store: construction *)
(* ===================================================================== *)




(* ===================================================================== *)
(** ** The store: saving *)
(* ===================================================================== *)



(** A run in which [json.dump] gives up after the opening brace: the file
    could be opened, [save] prints and raises what [json.dump] raised, and
    the store file, which held a document, is left with the brace. *)
Lemma save_leaves_truncated_file :
  let w := mkWorld {[ ["data"] ]}
             {[ default_file := JsonText (document [glycolysis_09]) ]} ∅
             clock0 0 [] (fun _ => Some (RecursionError, "{")) in
  let db := mkDB default_file (document [glycolysis_09]) in
  write_error w default_file = None /\
  fst (save (db, w)) = Raise RecursionError /\
  files (snd (snd (save (db, w)))) !! default_file = Some (NotJson "{") /\
  stdout (snd (snd (save (db, w)))) = [ErrorSaving RecursionError].
Proof. cbv zeta. repeat split; reflexivity. Qed.



(* ===================================================================== *)
(** ** The record model: construction *)
(* ===================================================================== *)

(** C7, as stated, fails on an input that has [id], [name] and [metadata],
    a confidence of 0.9 and no compound or reaction, but whose metadata
    has no [source]: every condition the claim lists is met, and the
    construction still fails, since [source] is a required field of
    [PathwayMetadata]. *)
Lemma construct_Pathway_metadata_without_source :
  let c := 0x1.ccccccccccccdp-1%float in
  in_unit_interval c /\
  Models.construct_Pathway (fun _ => None) unit (fun _ => None) tt
    [("id", VStr "GLY001"); ("name", VStr "Glycolysis");
     ("metadata", VDict [("confidence", VFloat c)])]
  = Models.Invalid [([Models.Field "metadata"; Models.Field "source"],
                     Models.missing)].
Proof. cbv zeta. repeat split; reflexivity. Qed.

(** C7 (amended): constructing a [Pathway] fails with a validation error
    that names the field when [id], [name] or [metadata] is absent, and
    when the metadata lacks its own required [source] or [confidence]; it
    fails when the confidence is a number outside [0, 1], and when a
    compound lacks [id] or [name] or a reaction lacks [reactants] or
    [products].  It succeeds on every input in which each required field
    is present with a value of its declared type, the confidence is a
    number within [0, 1], and each optional field that is given has its
    declared type.  A record that is returned has the [id] and [name] of
    the input and a confidence within [0, 1]. *)
Theorem construct_Pathway_validation
    (float_of_str : string -> option float) (datetime : Type)
    (datetime_of_value : value -> option datetime) (now : datetime)
    (d : list (string * value)) :
  let construct :=
    Models.construct_Pathway float_of_str datetime datetime_of_value now in
  (forall k,
     k = "id" \/ k = "name" \/ k = "metadata" -> dict_get d k = None ->
     exists errs,
       construct d = Models.Invalid errs /\
       In ([Models.Field k], Models.missing) errs) /\
  (forall md k,
     dict_get d "metadata" = Some (VDict md) ->
     k = "source" \/ k = "confidence" -> dict_get md k = None ->
     exists errs,
       construct d = Models.Invalid errs /\
       In ([Models.Field "metadata"; Models.Field k], Models.missing) errs) /\
  (forall md c f,
     dict_get d "metadata" = Some (VDict md) ->
     dict_get md "confidence" = Some c ->
     number_value c = Some f -> ~ in_unit_interval f ->
     exists errs, construct d = Models.Invalid errs) /\
  (forall cs cd k,
     dict_get d "compounds" = Some (VList cs) -> In (VDict cd) cs ->
     k = "id" \/ k = "name" -> dict_get cd k = None ->
     exists errs, construct d = Models.Invalid errs) /\
  (forall rs rd k,
     dict_get d "reactions" = Some (VList rs) -> In (VDict rd) rs ->
     k = "reactants" \/ k = "products" -> dict_get rd k = None ->
     exists errs, construct d = Models.Invalid errs) /\
  (well_formed_Pathway datetime_of_value d ->
     exists p, construct d = Models.Valid p) /\
  (forall p,
     construct d = Models.Valid p ->
     dict_get d "id" = Some (VStr (Models.id p)) /\
     dict_get d "name" = Some (VStr (Models.name p)) /\
     in_unit_interval (Models.confidence (Models.metadata p))).
Proof.
  cbv zeta. repeat apply conj.
  - intros k Hk Hnone. apply errors_invalid.
    now apply construct_missing.
  - intros md k Hmd Hk Hnone. apply errors_invalid.
    now apply construct_metadata_missing with md.
  - intros md c f Hmd Hc Hf Hout. apply is_valid_false.
    now apply construct_confidence_outside with md c f.
  - intros cs cd k Hcs Hin Hk Hnone. apply is_valid_false.
    now apply construct_compound_missing with cs cd k.
  - intros rs rd k Hrs Hin Hk Hnone. apply is_valid_false.
    now apply construct_reaction_missing with rs rd k.
  - intros Hwf. apply is_valid_true. now apply construct_well_formed.
  - intros p. apply construct_valid.
Qed.

(** Confidence 1.5 fails; 1.0 and 0.0 both succeed. *)
Lemma construct_Pathway_validation_bounds :
  let construct := Models.construct_Pathway (fun _ => None) unit (fun _ => None) tt in
  (exists errs, construct (kegg_pathway (VFloat 1.5)) = Models.Invalid errs) /\
  (exists p, construct (kegg_pathway (VFloat 1)) = Models.Valid p) /\
  (exists p, construct (kegg_pathway (VFloat 0)) = Models.Valid p).
Proof.
  cbv zeta.
  assert (Hshape : forall c, confidence_within_bounds (VFloat c) ->
            well_formed_Pathway (fun _ : value => @None unit)
              (kegg_pathway (VFloat c))).
  { intros c Hc. unfold well_formed_Pathway, absent_or.
    repeat apply conj; try (left; reflexivity);
      try (eexists; split; [reflexivity|eexists; reflexivity]).
    eexists. split; [reflexivity|].
    eexists. split; [reflexivity|]. unfold absent_or.
    repeat apply conj; try (left; reflexivity);
      try (eexists; split; [reflexivity|eexists; reflexivity]).
    eexists. split; [reflexivity|exact Hc]. }
  repeat apply conj.
  - refine (proj1 (proj2 (proj2
      (construct_Pathway_validation (fun _ => None) unit (fun _ => None) tt
         (kegg_pathway (VFloat 1.5)))))
      _ (VFloat 1.5) 1.5%float eq_refl eq_refl eq_refl _).
    intros [_ H]. discriminate H.
  - apply (proj1 (proj2 (proj2 (proj2 (proj2 (proj2
      (construct_Pathway_validation (fun _ => None) unit (fun _ => None) tt
         (kegg_pathway (VFloat 1))))))))).
    apply Hshape. exists 1%float. repeat split; reflexivity.
  - apply (proj1 (proj2 (proj2 (proj2 (proj2 (proj2
      (construct_Pathway_validation (fun _ => None) unit (fun _ => None) tt
         (kegg_pathway (VFloat 0))))))))).
    apply Hshape. exists 0%float. repeat split; reflexivity.
Defined.

(* ===================================================================== *)
(** ** The store: entries without a name *)
(* ===================================================================== *)

(** C8, as stated, fails on a store that holds a nameless entry after an
    entry with the argument's name: the scan stops at the match and never
    reads the nameless entry, so the call is the usual no-op. *)
Lemma add_pathway_match_before_nameless :
  let db := mkDB default_file
                 (document [named_only "Glycolysis"; VDict [("id", VStr "GLY002")]]) in
  add_pathway (named_only "Glycolysis") (db, empty_world)
  = (Ok tt, (db, logged (AlreadyExists (VStr "Glycolysis")) empty_world)).
Proof. reflexivity. Qed.

(** C8 (amended): [add_pathway] needs ['name'] in its argument and in the
    entries its scan reads.  On a store whose entries are dicts, an argument
    dict without ['name'] raises [KeyError('name')], with the store and the
    output unchanged.  For an argument that has a name, the scan reads the
    entries up to the first one with an equal name: a nameless entry met
    before any match raises [KeyError('name')]; a match met first ends the
    scan, and the call is the printed no-op whatever follows it. *)
Theorem add_pathway_needs_names
    (db : PathwayDatabase) (w : world) (l : list value) :
  subscript (pathways db) "pathways" = Ok (VList l) ->
  (forall pathway,
     Forall is_dict l -> nameless pathway ->
     add_pathway pathway (db, w) = (Raise (KeyError "name"), (db, w))) /\
  (forall pathway n pre q post,
     l = pre ++ q :: post ->
     subscript pathway "name" = Ok n ->
     Forall (other_name n) pre ->
     (nameless q ->
        add_pathway pathway (db, w) = (Raise (KeyError "name"), (db, w))) /\
     (forall a, subscript q "name" = Ok a -> py_eq a n = true ->
        add_pathway pathway (db, w)
        = (Ok tt, (db, logged (AlreadyExists n) w)))).
Proof.
  intros Hdoc. split.
  - intros pathway Hd Hp. unfold add_pathway.
    read_entries Hdoc.
    rewrite bind_py. destruct l as [|p l].
    + cbn [any_same_name negb]. apply nameless_subscript in Hp.
      now rewrite bind_py, Hp.
    + now rewrite (any_same_name_nameless_argument p l pathway Hd Hp).
  - intros pathway n pre q post -> Hn Hpre. split.
    + intros Hq%nameless_subscript. unfold add_pathway.
      read_entries Hdoc.
      rewrite bind_py, (any_same_name_skip pre _ pathway n Hn Hpre).
      cbn [any_same_name]. now rewrite Hq.
    + intros a Ha Heq. unfold add_pathway.
      read_entries Hdoc.
      rewrite bind_py, (any_same_name_skip pre _ pathway n Hn Hpre).
      cbn [any_same_name]. rewrite Ha, Hn, Heq. cbn [negb].
      now rewrite bind_py.
Qed.

(** A dictionary without a name, offered to a store of one named entry. *)
Lemma add_pathway_needs_names_nameless_argument :
  let db := mkDB default_file (document [named_only "Glycolysis"]) in
  add_pathway (VDict [("id", VStr "GLY002")]) (db, empty_world)
  = (Raise (KeyError "name"), (db, empty_world)).
Proof.
  cbv zeta.
  refine (proj1 (add_pathway_needs_names
                   (mkDB default_file (document [named_only "Glycolysis"]))
                   empty_world [named_only "Glycolysis"] _)
                (VDict [("id", VStr "GLY002")]) _ _).
  - reflexivity.
  - repeat constructor. now exists [("name", VStr "Glycolysis")].
  - now exists [("id", VStr "GLY002")].
Defined.

(* ===================================================================== *)
(** ** The store: what loading accepts *)
(* ===================================================================== *)

(** C9: [__init__] takes whatever document the file decodes to, without
    validating or deduplicating it; some store file has two pathways of the
    same name, and the store built from it has two entries of that name
    before any [add_pathway] is called. *)
Theorem load_keeps_duplicate_names :
  (forall p w doc,
     holds_document w p doc ->
     __init__ p w = (Ok (mkDB p doc), logged (LoadingFrom p) w)) /\
  (exists t db w' l,
     __init__ default_file (world_with t) = (Ok db, w') /\
     stdout w' = [LoadingFrom default_file] /\
     subscript (pathways db) "pathways" = Ok (VList l) /\
     ~ unique_names l).
Proof.
  split; [exact init_loads|].
  exists (JsonText (document [glycolysis_09; glycolysis_02])).
  eexists _, _, _. split; [|split; [|split]].
  - apply init_loads. repeat split; reflexivity.
  - reflexivity.
  - reflexivity.
  - unfold unique_names. cbn. intros Hnd.
    apply NoDup_cons in Hnd as [Hnotin _]. apply Hnotin. left.
Qed.

(* ===================================================================== *)
(** ** The store: what saving leaves alone *)
(* ===================================================================== *)

(** C10: [save] leaves the object as it is, whether it returns or raises:
    the pathway list and the [last_updated] held in memory are those of
    before the call.  Outside the object, the directories and every file
    but the store file stay as they are, and when [save] returns the store
    file holds the list with the reading of the clock taken by this call. *)
Theorem save_leaves_memory_unchanged (db : PathwayDatabase) (w : world) :
  exists r w',
    save (db, w) = (r, (db, w')) /\
    dirs w' = dirs w /\
    (forall q, q <> data_file db -> files w' !! q = files w !! q) /\
    (forall lst,
       r = Ok tt -> subscript (pathways db) "pathways" = Ok lst ->
       files w' !! data_file db
       = Some (JsonText (saved_document lst (clock w (ticks w))))).
Proof.
  rewrite save_run.
  destruct (subscript (pathways db) "pathways") as [lst|e].
  2:{ eexists _, _. split; [reflexivity|]. repeat split; auto. discriminate. }
  destruct (write_error w (data_file db)) as [e|].
  { eexists _, _. split; [reflexivity|]. repeat split; auto. discriminate. }
  cbv zeta.
  assert (Hother : forall q doc, q <> data_file db ->
            files (written (data_file db) doc w) !! q = files w !! q).
  { intros q doc Hq. cbn. now rewrite lookup_insert_ne. }
  destruct (refused w (saved_document lst (clock w (ticks w))))
    as [[e text]|].
  { eexists _, _. split; [reflexivity|]. split; [reflexivity|].
    split; [|discriminate].
    intros q Hq. cbn. now rewrite lookup_insert_ne. }
  destruct (len lst) as [n|e];
    (eexists _, _; split; [reflexivity|]; split; [reflexivity|];
     split; [intros q Hq; apply Hother, Hq|]).
  - intros lst' _ [= <-]. cbn. apply lookup_insert_eq.
  - discriminate.
Qed.

(* ===================================================================== *)
(** ** Further properties of the store *)
(* ===================================================================== *)

Module StoreFrameFacts.
Import Database.

Lemma dict_get_store_other d k k' x :
  k' <> k -> dict_get (dict_store k x d) k' = dict_get d k'.
Proof.
  intros Hk. induction d as [|[k0 v] d IH]; [reflexivity|]. cbn.
  destruct (String.eqb k0 k) eqn:E; cbn.
  - apply String.eqb_eq in E as ->.
    destruct (String.eqb k k') eqn:E'; [|reflexivity].
    apply String.eqb_eq in E'. congruence.
  - now rewrite IH.
Qed.

Lemma subscript_mutate_item_other v k k' x :
  k' <> k -> subscript (mutate_item v k x) k' = subscript v k'.
Proof.
  intros Hk. destruct v; try reflexivity. cbn.
  now rewrite dict_get_store_other.
Qed.

(** [_load_data] returns, and leaves directories, files and rights alone. *)
Lemma load_data_frame p w :
  exists v w', _load_data p w = (Ok v, w') /\
    dirs w' = dirs w /\ files w' = files w /\ denied w' = denied w.
Proof.
  destruct (is_dir w p) eqn:Hd.
  { rewrite (load_data_directory p w Hd). eexists _, _. repeat split. }
  destruct (files w !! p) as [t|] eqn:Hf.
  2:{ rewrite (load_data_absent p w Hd Hf). eexists _, _. repeat split. }
  destruct (is_denied w p) eqn:Hr.
  { rewrite (load_data_denied p w t Hd Hf Hr). eexists _, _. repeat split. }
  destruct t as [v|s].
  - rewrite (load_data_document p w v Hd Hf Hr). eexists _, _. repeat split.
  - rewrite (load_data_not_json p w s Hd Hf Hr). eexists _, _. repeat split.
Qed.

(** [mkdir(exist_ok=True)] changes nothing but, at most, the directories,
    by the one it is asked for. *)
Lemma mkdir_exist_ok_frame p w :
  exists r w', mkdir_exist_ok p w = (r, w') /\
    files w' = files w /\ denied w' = denied w /\ clock w' = clock w /\
    ticks w' = ticks w /\ stdout w' = stdout w /\
    (dirs w' = dirs w \/ (r = Ok tt /\ dirs w' = {[ p ]} ∪ dirs w)).
Proof.
  unfold mkdir_exist_ok, try_except, os_mkdir.
  destruct (is_dir w p || is_file w p).
  { cbn. destruct (is_dir w p); eexists _, _; repeat split; auto. }
  destruct (is_file w (parent p)).
  { cbn. destruct (is_dir w p); eexists _, _; repeat split; auto. }
  destruct (negb (is_dir w (parent p))).
  { cbn. eexists _, _; repeat split; auto. }
  destruct (is_denied w (parent p)).
  { cbn. destruct (is_dir w p); eexists _, _; repeat split; auto. }
  eexists _, _. repeat split; auto.
Qed.

End StoreFrameFacts.
Import StoreFrameFacts.

(** X1: whatever the store holds and whatever it is given, [add_pathway]
    either leaves the object as it is or appends its argument, and nothing
    else, at the end of the list under ['pathways']; the other entries of
    the document and [data_file] stay, and an exception leaves the object
    untouched.  It never touches directories, files or the clock, and it
    prints at most one line, which names the argument. *)
Theorem add_pathway_only_appends
    (db : PathwayDatabase) (w : world) (pathway : value) :
  exists r db' w',
    add_pathway pathway (db, w) = (r, (db', w')) /\
    data_file db' = data_file db /\
    (db' = db \/
     exists l,
       r = Ok tt /\
       subscript (pathways db) "pathways" = Ok (VList l) /\
       subscript (pathways db') "pathways" = Ok (VList (l ++ [pathway])) /\
       forall k, k <> "pathways" ->
         subscript (pathways db') k = subscript (pathways db) k) /\
    (forall e, r = Raise e -> db' = db) /\
    dirs w' = dirs w /\ files w' = files w /\ ticks w' = ticks w /\
    (stdout w' = stdout w \/
     exists n, subscript pathway "name" = Ok n /\
       (stdout w' = stdout w ++ [AddingNew n] \/
        stdout w' = stdout w ++ [AlreadyExists n])).
Proof.
  unfold add_pathway. rewrite bind_self, bind_py.
  destruct (subscript (pathways db) "pathways") as [lst|e] eqn:Hdoc.
  2:{ eexists _, _, _. split; [reflexivity|]. repeat split; auto. }
  rewrite bind_py.
  destruct (iterate lst) as [items|e].
  2:{ eexists _, _, _. split; [reflexivity|]. repeat split; auto. }
  rewrite bind_py.
  destruct (any_same_name items pathway) as [found|e].
  2:{ eexists _, _, _. split; [reflexivity|]. repeat split; auto. }
  destruct found; cbn [negb]; rewrite bind_py;
    (destruct (subscript pathway "name") as [n|e] eqn:Hn;
     [|eexists _, _, _; split; [reflexivity|]; repeat split; auto]).
  - eexists _, _, _. split; [reflexivity|]. repeat split; auto.
    right. exists n. split; [reflexivity|]. now right.
  - rewrite bind_io_print, bind_self, bind_py, Hdoc, bind_py.
    destruct lst as [| | | | |l|d]; cbn [append];
      try (eexists _, _, _; split; [reflexivity|]; repeat split; auto;
           right; exists n; split; [reflexivity|]; now left).
    eexists _, _, _. split; [reflexivity|]. split; [reflexivity|].
    split; [|split; [discriminate|]].
    + right. exists l. split; [reflexivity|]. split; [reflexivity|].
      split; [eapply subscript_mutate_item, Hdoc|].
      intros k Hk. now apply subscript_mutate_item_other.
    + repeat split; auto. right. exists n. split; [reflexivity|]. now left.
Qed.

Module InitFrameFacts.
Import Database.



Lemma is_dir_ext w w' q : dirs w' = dirs w -> is_dir w' q = is_dir w q.
Proof. unfold is_dir. now intros ->. Qed.

Lemma is_file_ext w w' q : files w' = files w -> is_file w' q = is_file w q.
Proof. unfold is_file. now intros ->. Qed.

(** The error of [open(p, 'w')] depends on directories, files and rights. *)
Lemma write_error_ext w w' p :
  dirs w' = dirs w -> files w' = files w -> denied w' = denied w ->
  write_error w' p = write_error w p.
Proof.
  intros Hd Hf Hr. unfold write_error.
  now rewrite !(is_dir_ext w w'), !(is_file_ext w w'), !(is_denied_ext w w').
Qed.

End InitFrameFacts.
Import InitFrameFacts.

(** X2: constructing a store never creates, changes or removes a file, and
    changes no access right: at most the parent directory of the store
    file is added to the directories; a store that is constructed is
    bound to the path it was given. *)
Theorem init_leaves_files_alone (p : path) (w : world) :
  exists r w',
    __init__ p w = (r, w') /\
    files w' = files w /\
    denied w' = denied w /\
    (dirs w' = dirs w \/ dirs w' = {[ parent p ]} ∪ dirs w) /\
    (forall db, r = Ok db -> data_file db = p).
Proof.
  unfold __init__, bind.
  destruct (mkdir_exist_ok_frame (parent p) w)
    as (r & w1 & -> & Hf & Hr & _ & _ & _ & Hd).
  destruct r as [[]|e].
  2:{ eexists _, _. split; [reflexivity|]. repeat split; auto.
      - destruct Hd as [Hd|[[=] _]]. now left.
      - discriminate. }
  destruct (load_data_frame p w1) as (v & w' & -> & Hd' & Hf' & Hr').
  eexists _, _. split; [reflexivity|].
  rewrite Hf', Hr', Hd'. repeat split; auto.
  - destruct Hd as [Hd|[_ Hd]]; auto.
  - now intros db [= <-].
Qed.



Module RestartFacts.
Import Database.



End RestartFacts.
Import RestartFacts.



(* ===================================================================== *)
(** ** The discovery tool: adding what the model returned *)
(* ===================================================================== *)

Module DiscoveryFacts.
Import Database Discovery.

Lemma str_name_dict p : str_name (dict p) = Some (name p).
Proof. reflexivity. Qed.

Lemma str_name_dicts (ps : list MetabolicPathway) : str_name <$> (dict <$> ps) = (Some ∘ name) <$> ps.
Proof. induction ps as [|p ps IH]; [reflexivity|]. cbn. now rewrite IH. Qed.

(** The loop, on a store whose entries have string names. *)
Lemma add_each_run (ps : list MetabolicPathway) : forall db w l,
  subscript (pathways db) "pathways" = Ok (VList l) ->
  Forall str_named l ->
  exists db' w',
    add_each ps (db, w) = (Ok tt, (db', w')) /\
    data_file db' = data_file db /\
    subscript (pathways db') "pathways"
      = Ok (VList (l ++ (dict <$> taken (str_name <$> l) ps))) /\
    (forall k, k <> "pathways" ->
       subscript (pathways db') k = subscript (pathways db) k) /\
    dirs w' = dirs w /\ files w' = files w /\ denied w' = denied w /\
    clock w' = clock w /\ ticks w' = ticks w /\
    stdout w' = stdout w ++ offered_lines (str_name <$> l) ps /\
    refused w' = refused w.
Proof.
  induction ps as [|p ps IH]; intros db w l Hdoc Hl.
  - exists db, w. cbn. rewrite !app_nil_r. repeat split; auto.
  - cbn [add_each taken offered_lines].
    pose proof (add_pathway_strings db w l (dict p) (name p) Hdoc Hl
                  (str_name_dict p)) as Hadd.
    destruct (decide (Some (name p) ∈ str_name <$> l)) as [Hin|Hout].
    + rewrite bool_decide_eq_true_2 in Hadd by assumption.
      rewrite (bind_ok _ _ _ _ _ Hadd).
      destruct (IH db (logged (AlreadyExists (VStr (name p))) w) l Hdoc Hl)
        as (db' & w' & -> & Hfile & Hent & Hkeys & Hd & Hf & Hr & Hc & Ht & Hs
              & Hx).
      exists db', w'. rewrite Hs. cbn [stdout logged].
      rewrite <- app_assoc. repeat split; auto.
    + rewrite bool_decide_eq_false_2 in Hadd by assumption.
      rewrite (bind_ok _ _ _ _ _ Hadd).
      assert (Hl' : Forall str_named (l ++ [dict p])).
      { apply Forall_app. split; [assumption|]. repeat constructor.
        now exists (name p). }
      destruct (IH (appended db l (dict p))
                   (logged (AddingNew (VStr (name p))) w) (l ++ [dict p])
                   (entries_appended db _ l (dict p) Hdoc) Hl')
        as (db' & w' & -> & Hfile & Hent & Hkeys & Hd & Hf & Hr & Hc & Ht & Hs
              & Hx).
      exists db', w'. rewrite Hs, Hent. cbn [stdout logged].
      rewrite fmap_app, <- !app_assoc. cbn [fmap list_fmap app].
      repeat split; auto.
      intros k Hk. rewrite (Hkeys k Hk).
      now apply subscript_mutate_item_other.
Qed.

(** *** What the store takes *)

Lemma taken_sublist (ps : list MetabolicPathway) : forall known, sublist (taken known ps) ps.
Proof.
  induction ps as [|p ps IH]; intros known; cbn; [constructor|].
  destruct (decide _); [apply sublist_cons|apply sublist_skip]; apply IH.
Qed.

Lemma taken_new (ps : list MetabolicPathway) : forall known p,
  p ∈ taken known ps -> Some (name p) ∉ known.
Proof.
  induction ps as [|q ps IH]; intros known p; cbn.
  - intros []%elem_of_nil.
  - destruct (decide _) as [Hin|Hout]; [apply IH|].
    intros [->|Hp%IH]%elem_of_cons; [assumption|].
    intros Hk. apply Hp. apply elem_of_app. now left.
Qed.

Lemma taken_NoDup (ps : list MetabolicPathway) : forall known,
  NoDup ((Some ∘ name) <$> taken known ps).
Proof.
  induction ps as [|q ps IH]; intros known; cbn; [constructor|].
  destruct (decide _) as [Hin|Hout]; [apply IH|].
  cbn. apply NoDup_cons. split; [|apply IH].
  intros (p & Hp & Hin)%list_elem_of_fmap. cbn in Hp.
  apply taken_new in Hin. apply Hin. rewrite <- Hp.
  apply elem_of_app. right. left.
Qed.

Lemma taken_covers (ps : list MetabolicPathway) : forall known p,
  p ∈ ps ->
  Some (name p) ∈ known ++ ((Some ∘ name) <$> taken known ps).
Proof.
  induction ps as [|q ps IH]; intros known p; [intros []%elem_of_nil|].
  cbn. intros [->|Hp]%elem_of_cons.
  - destruct (decide _) as [Hin|Hout]; rewrite elem_of_app; [now left|].
    right. left.
  - destruct (decide _) as [Hin|Hout]; [now apply IH|].
    specialize (IH (known ++ [Some (name q)]) p Hp).
    rewrite <- app_assoc in IH. exact IH.
Qed.


Lemma taken_names (ps : list MetabolicPathway) : forall known n,
  n ∈ name <$> taken known ps <-> n ∈ name <$> ps /\ Some n ∉ known.
Proof.
  intros known n. split.
  - intros (p & -> & Hp)%list_elem_of_fmap. split.
    + apply list_elem_of_fmap. exists p. split; [reflexivity|].
      eapply elem_of_sublist; [exact Hp|apply taken_sublist].
    + now apply taken_new in Hp.
  - intros [(p & -> & Hp)%list_elem_of_fmap Hnew].
    pose proof (taken_covers ps known p Hp) as Hc.
    apply elem_of_app in Hc as [Hc|Hc]; [contradiction|].
    apply list_elem_of_fmap in Hc as (q & [= Hq] & Hin).
    apply list_elem_of_fmap. now exists q.
Qed.

(** As many are taken as there are new names. *)
Lemma taken_length (ps : list MetabolicPathway) known :
  length (taken known ps) = length (new_names known ps).
Proof.
  rewrite <- (length_fmap name (taken known ps)).
  apply Permutation_length, NoDup_Permutation.
  - pose proof (taken_NoDup ps known) as H.
    rewrite (list_fmap_compose name Some) in H.
    eapply NoDup_fmap_1, H.
  - apply NoDup_remove_dups.
  - intros n. unfold new_names.
    rewrite taken_names, elem_of_remove_dups, list_elem_of_filter. tauto.
Qed.

End DiscoveryFacts.
Import DiscoveryFacts.



(** X6: the 'Add to database' block of the discovery tool, on a store whose
    entries have string names: the store in memory takes, whatever comes
    of the save, as many pathways as there are distinct names among the
    offered ones that it did not know, and so at most as many as offered.
    The block raises exactly when the store file cannot be opened for
    writing, and then the files are as they were, or when [json.dump]
    raises while it writes, and then the store file is left with the
    beginning of the encoding.  Otherwise it returns the two counts, whose
    difference is the number of pathways taken, and the store file holds
    the old entries followed by the new ones. *)
Theorem add_to_database_counts
    (db : PathwayDatabase) (w : world) (l : list value)
    (ps : list Discovery.MetabolicPathway) :
  subscript (pathways db) "pathways" = Ok (VList l) ->
  Forall str_named l ->
  exists news db' w',
    length news = length (new_names (str_name <$> l) ps) /\
    length news <= length ps /\
    subscript (pathways db') "pathways"
      = Ok (VList (l ++ (Discovery.dict <$> news))) /\
    let data := saved_document (VList (l ++ (Discovery.dict <$> news)))
                  (clock w (ticks w)) in
    match write_error w (data_file db) with
    | Some e =>
        Discovery.add_to_database ps (db, w) = (Raise e, (db', w')) /\
        files w' = files w
    | None =>
        match refused w data with
        | Some (e, text) =>
            Discovery.add_to_database ps (db, w) = (Raise e, (db', w')) /\
            files w' !! data_file db = Some (NotJson text)
        | None =>
            Discovery.add_to_database ps (db, w)
            = (Ok (length l, length l + length news), (db', w')) /\
            files w' !! data_file db = Some (JsonText data)
        end
    end.
Proof.
  intros Hdoc Hl.
  destruct (add_each_run ps db w l Hdoc Hl)
    as (db' & w1 & Hrun & Hfile & Hent & _ & Hd & Hf & Hr & Hc & Ht & _ & Hx).
  pose proof (write_error_ext w w1 (data_file db) Hd Hf Hr) as Hwe.
  set (news := taken (str_name <$> l) ps) in *.
  assert (Hlen : length news = length (new_names (str_name <$> l) ps))
    by apply taken_length.
  assert (Hle : length news <= length ps)
    by apply sublist_length, taken_sublist.
  exists news, db', (snd (snd (save (db', w1)))).
  split; [assumption|]. split; [assumption|]. split; [assumption|].
  unfold Discovery.add_to_database.
  rewrite bind_self, bind_py, Hdoc, bind_py. cbn [len].
  rewrite (bind_ok _ _ _ _ _ Hrun).
  pose proof (save_run db' w1) as Hsave.
  rewrite Hent, Hfile, Hwe, Hx, Hc, Ht in Hsave. cbn [len] in Hsave.
  cbv zeta in Hsave |- *.
  destruct (write_error w (data_file db)) as [e|].
  { unfold bind at 1. rewrite Hsave. split; [reflexivity|exact Hf]. }
  destruct (refused w (saved_document (VList (l ++ (Discovery.dict <$> news)))
                         (clock w (ticks w)))) as [[e text]|].
  { unfold bind at 1. rewrite Hsave. split; [reflexivity|].
    cbn. apply lookup_insert_eq. }
  rewrite (bind_ok _ _ _ _ _ Hsave).
  rewrite bind_self, bind_py, Hent, bind_py. cbn [len].
  unfold ret. rewrite Hsave. cbn [snd]. rewrite !length_app, !length_fmap.
  split; [reflexivity|]. cbn. apply lookup_insert_eq.
Qed.

(** Of TCA cycle, Glycolysis and TCA cycle again, offered to a store of
    one pathway named Glycolysis, one is added: the counts are 1 and 2. *)
Lemma add_to_database_counts_tca :
  let db := mkDB default_file (document [glycolysis_09]) in
  let w := world_with (JsonText (document [glycolysis_09])) in
  exists db' w',
    Discovery.add_to_database [tca; glycolysis_again; tca_again] (db, w)
    = (Ok (1, 2), (db', w')).
Proof.
  cbv zeta.
  destruct (add_to_database_counts
              (mkDB default_file (document [glycolysis_09]))
              (world_with (JsonText (document [glycolysis_09])))
              [glycolysis_09] [tca; glycolysis_again; tca_again])
    as (news & db' & w' & Hlen & _ & _ & Hrun).
  - reflexivity.
  - repeat constructor. now exists "Glycolysis".
  - cbv zeta in Hrun. cbn in Hrun, Hlen. destruct Hrun as [Hrun _].
    rewrite Hlen in Hrun. exists db', w'. exact Hrun.
Defined.

(* ===================================================================== *)
(** ** The discovery tool: the known pathways, in general *)
(* ===================================================================== *)

Module ContextFacts.

Lemma join_strs sep ns : join sep (VStr <$> ns) = Ok (String.concat sep ns).
Proof.
  induction ns as [|n ns IH]; [reflexivity|].
  cbn [fmap list_fmap join]. fold (fmap VStr ns).
  destruct ns as [|n' ns]; [reflexivity|].
  cbn [fmap list_fmap] in *. fold (fmap VStr ns) in *. now rewrite IH.
Qed.

Lemma join_not_str sep l :
  Exists (fun v => forall s, v <> VStr s) l -> join sep l = Raise TypeError.
Proof.
  induction 1 as [v l Hv|v l _ IH].
  - destruct v; try reflexivity. now destruct (Hv s).
  - destruct v; try reflexivity. cbn [join].
    destruct l as [|v' l]; [discriminate IH|]. now rewrite IH.
Qed.

Lemma names_of_str_named l ns :
  str_name <$> l = Some <$> ns -> names_of l = Ok (VStr <$> ns).
Proof.
  revert ns. induction l as [|p l IH]; intros [|n ns]; try discriminate;
    [reflexivity|].
  cbn [fmap list_fmap]. intros [= Hp Hl]. cbn [names_of].
  unfold str_name in Hp. destruct (subscript p "name") as [[]|]; try discriminate.
  injection Hp as ->. fold (fmap str_name l) in Hl. fold (fmap (@Some string) ns) in Hl.
  now rewrite (IH ns Hl).
Qed.

Lemma names_of_not_str l ns :
  names_of l = Ok ns -> Exists (fun p => str_name p = None) l ->
  Exists (fun v => forall s, v <> VStr s) ns.
Proof.
  revert ns. induction l as [|p l IH]; intros ns Hns Hex;
    [inversion Hex|].
  cbn [names_of] in Hns.
  destruct (subscript p "name") as [a|] eqn:Ha; [|discriminate].
  destruct (names_of l) as [ns'|]; [|discriminate]. injection Hns as <-.
  apply Exists_cons in Hex as [Hp|Hex].
  - apply Exists_cons_hd. intros s ->. unfold str_name in Hp.
    now rewrite Ha in Hp.
  - apply Exists_cons_tl. now apply IH.
Qed.

Lemma known_pathways_str_strs ns :
  Tools.known_pathways_str (VStr <$> ns) = Ok (context_text ns).
Proof.
  destruct ns as [|n ns]; [reflexivity|]. apply (join_strs ", " (n :: ns)).
Qed.

(** The context of a store whose entries have string names. *)
Lemma run_known_pathways_strs db w l ns :
  subscript (pathways db) "pathways" = Ok (VList l) ->
  str_name <$> l = Some <$> ns ->
  Tools._run_known_pathways (db, w)
  = (Ok (VStr <$> ns, context_text ns),
     (db, logged (CurrentKnown (context_text ns)) w)).
Proof.
  intros Hdoc Hl. unfold Tools._run_known_pathways.
  rewrite (bind_ok _ _ _ _ _
             (get_known_pathways_list db w l _ Hdoc (names_of_str_named l ns Hl))).
  now rewrite bind_py, known_pathways_str_strs.
Qed.

Lemma names_str_named l ns :
  str_name <$> l = Some <$> ns -> Forall str_named l.
Proof.
  revert ns. induction l as [|p l IH]; intros [|n ns]; try discriminate;
    [constructor|].
  cbn. intros [= Hp Hl]. constructor; [now exists n|].
  now apply (IH ns).
Qed.

End ContextFacts.
Import ContextFacts.

(** X7: on a store whose entries have string names, the discovery tool gives
    the model the names as they are stored, in the order of the list and
    with their repetitions, joined by a comma and a space, or the word
    none for a store without pathways; the same text is printed, and the
    store is left as it is. *)
Theorem discovery_context_lists_names
    (db : PathwayDatabase) (w : world) (l : list value) (ns : list string) :
  subscript (pathways db) "pathways" = Ok (VList l) ->
  str_name <$> l = Some <$> ns ->
  Tools._run_known_pathways (db, w)
  = (Ok (VStr <$> ns, context_text ns),
     (db, logged (CurrentKnown (context_text ns)) w)).
Proof.
  apply run_known_pathways_strs.
Qed.

(** A store with Glycolysis twice and glycolysis once lists the three. *)
Lemma discovery_context_lists_names_duplicates :
  Tools._run_known_pathways
    (mkDB default_file
       (document [named_only "Glycolysis"; named_only "TCA cycle";
                  named_only "glycolysis"; named_only "Glycolysis"]),
     empty_world)
  = (Ok ([VStr "Glycolysis"; VStr "TCA cycle"; VStr "glycolysis";
          VStr "Glycolysis"],
         "Glycolysis, TCA cycle, glycolysis, Glycolysis"),
     (mkDB default_file
        (document [named_only "Glycolysis"; named_only "TCA cycle";
                   named_only "glycolysis"; named_only "Glycolysis"]),
      logged (CurrentKnown "Glycolysis, TCA cycle, glycolysis, Glycolysis")
        empty_world)).
Proof.
  apply (discovery_context_lists_names _ empty_world
           [named_only "Glycolysis"; named_only "TCA cycle";
            named_only "glycolysis"; named_only "Glycolysis"]
           ["Glycolysis"; "TCA cycle"; "glycolysis"; "Glycolysis"]);
    reflexivity.
Defined.

(** X8: when every entry of the store has a name but one of the names is no
    string, [get_known_pathways] returns the names, and the discovery tool
    stops at the join with a [TypeError], before it prints the known
    pathways and before the model is asked. *)
Theorem discovery_context_needs_string_names
    (db : PathwayDatabase) (w : world) (l : list value) :
  subscript (pathways db) "pathways" = Ok (VList l) ->
  Forall (fun p => exists n, subscript p "name" = Ok n) l ->
  Exists (fun p => str_name p = None) l ->
  (exists ns, get_known_pathways (db, w) = (Ok ns, (db, w))) /\
  Tools._run_known_pathways (db, w) = (Raise TypeError, (db, w)).
Proof.
  intros Hdoc Hl Hex. destruct (names_of_named l Hl) as (ns & Hns & _).
  pose proof (get_known_pathways_list db w l ns Hdoc Hns) as Hknown.
  split; [eauto|]. unfold Tools._run_known_pathways.
  rewrite (bind_ok _ _ _ _ _ Hknown), bind_py.
  assert (Htext : Tools.known_pathways_str ns = Raise TypeError).
  { pose proof (names_of_not_str l ns Hns Hex) as Hbad.
    destruct ns as [|n ns]; [inversion Hbad|].
    apply (join_not_str ", " (n :: ns) Hbad). }
  now rewrite Htext.
Qed.

(** A store whose second pathway is named by the number 7. *)
Lemma discovery_context_needs_string_names_numbered :
  (exists ns,
     get_known_pathways (mkDB default_file numbered, empty_world)
     = (Ok ns, (mkDB default_file numbered, empty_world))) /\
  Tools._run_known_pathways (mkDB default_file numbered, empty_world)
  = (Raise TypeError, (mkDB default_file numbered, empty_world)).
Proof.
  apply (discovery_context_needs_string_names _ _
           [named_only "Glycolysis"; VDict [("name", VInt 7)]]).
  - reflexivity.
  - repeat constructor; eexists; reflexivity.
  - apply Exists_cons_tl, Exists_cons_hd. reflexivity.
Defined.

(** X9: what the discovery tool adds in one call, it names as known in the
    next: after the 'Add to database' block has run on a store whose
    entries have string names, whether the save returned or raised, the
    known-pathways context of the store in memory lists the old names
    followed by the names of the pathways just added, and every name the
    model returned is among them. *)
Theorem discovered_pathways_are_known_next
    (db : PathwayDatabase) (w : world) (l : list value) (ns : list string)
    (ps : list Discovery.MetabolicPathway) :
  subscript (pathways db) "pathways" = Ok (VList l) ->
  str_name <$> l = Some <$> ns ->
  exists r db' w' news,
    Discovery.add_to_database ps (db, w) = (r, (db', w')) /\
    sublist news ps /\
    (forall p, p ∈ ps -> Discovery.name p ∈ ns ++ (Discovery.name <$> news)) /\
    Tools._run_known_pathways (db', w')
    = (Ok (VStr <$> (ns ++ (Discovery.name <$> news)),
           context_text (ns ++ (Discovery.name <$> news))),
       (db', logged (CurrentKnown
                       (context_text (ns ++ (Discovery.name <$> news)))) w')).
Proof.
  intros Hdoc Hns. pose proof (names_str_named l ns Hns) as Hl.
  destruct (add_each_run ps db w l Hdoc Hl)
    as (db' & w1 & Hrun & Hfile & Hent & _).
  set (news := taken (str_name <$> l) ps) in *.
  assert (Hnames : str_name <$> (l ++ (Discovery.dict <$> news))
                   = Some <$> (ns ++ (Discovery.name <$> news))).
  { rewrite !fmap_app, Hns, str_name_dicts. f_equal.
    now rewrite (list_fmap_compose Discovery.name Some). }
  assert (Hall : forall p, p ∈ ps ->
            Discovery.name p ∈ ns ++ (Discovery.name <$> news)).
  { intros p Hp. pose proof (taken_covers ps (str_name <$> l) p Hp) as Hc.
    rewrite Hns, (list_fmap_compose Discovery.name Some), <- fmap_app in Hc.
    apply list_elem_of_fmap in Hc as (n & [= ->] & Hn).
    unfold news. now rewrite Hns. }
  unfold Discovery.add_to_database.
  rewrite bind_self, bind_py, Hdoc, bind_py. cbn [len].
  rewrite (bind_ok _ _ _ _ _ Hrun).
  pose proof (save_run db' w1) as Hsave. rewrite Hent in Hsave.
  cbn [len] in Hsave.
  destruct (write_error w1 (data_file db')) as [e|];
    [|cbv zeta in Hsave; destruct (refused w1 _) as [[e text]|]].
  - unfold bind at 1. rewrite Hsave. eexists _, db', _, news.
    split; [reflexivity|]. split; [apply taken_sublist|].
    split; [exact Hall|].
    now apply run_known_pathways_strs with (l ++ (Discovery.dict <$> news)).
  - unfold bind at 1. rewrite Hsave. eexists _, db', _, news.
    split; [reflexivity|]. split; [apply taken_sublist|].
    split; [exact Hall|].
    now apply run_known_pathways_strs with (l ++ (Discovery.dict <$> news)).
  - rewrite (bind_ok _ _ _ _ _ Hsave).
    rewrite bind_self, bind_py, Hent, bind_py. cbn [len].
    eexists _, db', _, news. split; [reflexivity|].
    split; [apply taken_sublist|]. split; [exact Hall|].
    now apply run_known_pathways_strs with (l ++ (Discovery.dict <$> news)).
Qed.

(** TCA cycle, offered to a store that knows Glycolysis, is in the next
    context. *)
Lemma discovered_pathways_are_known_next_tca :
  let db := mkDB default_file (document [glycolysis_09]) in
  let w := world_with (JsonText (document [glycolysis_09])) in
  exists r db' w' news,
    Discovery.add_to_database [tca; glycolysis_again; tca_again] (db, w)
    = (r, (db', w')) /\
    fst (Tools._run_known_pathways (db', w'))
    = Ok (VStr <$> ("Glycolysis" :: (Discovery.name <$> news)),
          context_text ("Glycolysis" :: (Discovery.name <$> news))) /\
    "TCA cycle" ∈ "Glycolysis" :: (Discovery.name <$> news).
Proof.
  cbv zeta.
  destruct (discovered_pathways_are_known_next
              (mkDB default_file (document [glycolysis_09]))
              (world_with (JsonText (document [glycolysis_09])))
              [glycolysis_09] ["Glycolysis"] [tca; glycolysis_again; tca_again])
    as (r & db' & w' & news & Hrun & _ & Hall & Hnext).
  - reflexivity.
  - reflexivity.
  - exists r, db', w', news. split; [exact Hrun|]. rewrite Hnext.
    split; [reflexivity|]. apply (Hall tca). apply list_elem_of_here.
Defined.

(* ===================================================================== *)
(** ** The validator tool *)
(* ===================================================================== *)

Module ValidatorFacts.
Import Validator.

Lemma dict_get_setitem d k v : dict_get (dict_setitem k v d) k = Some v.
Proof.
  induction d as [|[k' v'] d IH]; cbn.
  - now rewrite String.eqb_refl.
  - destruct (String.eqb k' k) eqn:E; cbn; now rewrite E.
Qed.

Lemma dict_get_setitem_other d k k' v :
  k' <> k -> dict_get (dict_setitem k v d) k' = dict_get d k'.
Proof.
  intros Hk. induction d as [|[k0 v0] d IH]; cbn.
  - destruct (String.eqb k k') eqn:E; [|reflexivity].
    apply String.eqb_eq in E. congruence.
  - destruct (String.eqb k0 k) eqn:E; cbn.
    + apply String.eqb_eq in E as ->.
      destruct (String.eqb k k') eqn:E'; [|reflexivity].
      apply String.eqb_eq in E'. congruence.
    + now rewrite IH.
Qed.

Lemma dict_setitem_same d k v :
  dict_get d k = Some v -> dict_setitem k v d = d.
Proof.
  induction d as [|[k' v'] d IH]; cbn; [discriminate|].
  destruct (String.eqb k' k) eqn:E.
  - now intros [= ->].
  - intros H. now rewrite IH.
Qed.

Lemma dict_store_same d k v :
  dict_get d k = Some v -> dict_store k v d = d.
Proof.
  induction d as [|[k' v'] d IH]; cbn; [discriminate|].
  destruct (String.eqb k' k) eqn:E.
  - now intros [= ->].
  - intros H. now rewrite IH.
Qed.

Lemma dict_store_keys d k v : (dict_store k v d).*1 = d.*1.
Proof.
  induction d as [|[k' v'] d IH]; [reflexivity|]. cbn.
  destruct (String.eqb k' k); cbn; [reflexivity|]. now rewrite IH.
Qed.

(** The fields reported missing from a dict are those without an entry. *)
Lemma missing_fields_dict d fields :
  missing_fields (VDict d) fields
  = Ok (filter (fun k => dict_get d k = None) fields).
Proof.
  induction fields as [|k fields IH]; [reflexivity|].
  cbn [missing_fields contains]. rewrite IH.
  destruct (dict_get d k) eqn:E.
  - now rewrite filter_cons_False by congruence.
  - now rewrite filter_cons_True by assumption.
Qed.

Lemma filter_absent_nil d fields :
  filter (fun k => dict_get d k = None) fields = [] <->
  Forall (fun k => is_Some (dict_get d k)) fields.
Proof.
  induction fields as [|k fields IH]; [split; constructor|].
  destruct (dict_get d k) eqn:E.
  - rewrite filter_cons_False by congruence. rewrite IH, Forall_cons.
    split; [intros H; split; [rewrite E; eauto|assumption]|now intros [_ H]].
  - rewrite filter_cons_True by assumption. split; [discriminate|].
    intros [[v Hv] _]%Forall_cons. congruence.
Qed.

Lemma run_passes d md :
  passes d md -> _run (JsonText (VDict d)) = Validated (VDict (stamped d md)).
Proof.
  intros [Hreq Hmd]. unfold _run. rewrite missing_fields_dict.
  rewrite (proj2 (filter_absent_nil d required_fields) Hreq).
  unfold set_metadata. cbn [subscript]. rewrite Hmd. cbn [setitem mutate_item].
  cbn [subscript]. rewrite (dict_get_store d "metadata" _ _ Hmd).
  cbn [setitem mutate_item]. unfold stamped. f_equal. f_equal.
  clear Hreq. induction d as [|[k v] d IH]; [discriminate|].
  cbn in Hmd |- *. destruct (String.eqb k "metadata") eqn:E; cbn; rewrite E.
  - reflexivity.
  - now rewrite IH.
Qed.

Lemma validator_stamped_lookup d md :
  passes d md ->
  exists md',
    _run (JsonText (VDict d)) = Validated (VDict (stamped d md)) /\
    dict_get (stamped d md) "metadata" = Some (VDict md') /\
    dict_get md' "verification_status" = Some (VStr "validated") /\
    dict_get md' "llm_validation_notes"
      = Some (VStr "Basic validation passed").
Proof.
  intros Hp. eexists. split; [now apply run_passes|].
  destruct Hp as [_ Hmd]. unfold stamped.
  split; [eapply dict_get_store, Hmd|].
  split; [rewrite dict_get_setitem_other by discriminate;
          apply dict_get_setitem|apply dict_get_setitem].
Qed.

(** Only a dict that passes is validated. *)
Lemma run_validated t v' :
  _run t = Validated v' ->
  exists d md, t = JsonText (VDict d) /\ passes d md.
Proof.
  destruct t as [v|s]; [|discriminate]. unfold _run.
  destruct v as [|b|z|f|s|l|d];
    try (destruct (missing_fields _ _) as [[|? ?]|]; cbn; discriminate).
  rewrite missing_fields_dict.
  destruct (filter _ required_fields) eqn:Hmiss; [|discriminate].
  apply filter_absent_nil in Hmiss.
  unfold set_metadata at 1. cbn [subscript].
  destruct (dict_get d "metadata") as [md|] eqn:Hmd; [|cbn; discriminate].
  destruct md as [| | | | |?|md]; try (cbn; discriminate).
  intros _. now exists d, md.
Qed.

End ValidatorFacts.
Import ValidatorFacts.

Module RecordFacts.
Import Models.
Local Open Scope validation_scope.

Section Coerced.

Context (float_of_str : string -> option float) {datetime : Type}
        (datetime_of_value : value -> option datetime) (now : datetime).

(** The pieces a constructed [Pathway] was made from. *)
Lemma construct_Pathway_metadata d p :
  construct_Pathway float_of_str datetime datetime_of_value now d = Valid p ->
  exists md,
    dict_get d "metadata" = Some (VDict md) /\
    construct_PathwayMetadata float_of_str datetime datetime_of_value now md
    = Valid (metadata p).
Proof.
  unfold construct_Pathway.
  intros (g6 & rel & H6 & _ & ->)%ap_valid.
  apply ap_valid in H6 as (g5 & m & H5 & Hmd & ->).
  apply ap_valid in H5 as (g4 & rs & H4 & _ & ->).
  apply ap_valid in H4 as (g3 & cs & H3 & _ & ->).
  apply ap_valid in H3 as (g2 & desc & H2 & _ & ->).
  apply ap_valid in H2 as (g1 & nm & H1 & _ & ->).
  apply ap_valid in H1 as (g0 & i & [= <-] & _ & ->).
  cbn [metadata]. unfold required in Hmd.
  destruct (dict_get d "metadata") as [v|]; [|discriminate].
  destruct v as [| | | | |l|md]; try discriminate Hmd. cbn [model] in Hmd.
  exists md. split; [reflexivity|].
  destruct (construct_PathwayMetadata _ _ _ _ md) as [m'|]; [|discriminate].
  cbn in Hmd. now injection Hmd as <-.
Qed.

Lemma construct_PathwayMetadata_defaults md m :
  construct_PathwayMetadata float_of_str datetime datetime_of_value now md
  = Valid m ->
  with_default md "last_updated" now (datetime_input datetime datetime_of_value)
    = Valid (last_updated m) /\
  with_default md "verification_status" "unverified" str
    = Valid (verification_status m) /\
  with_default md "llm_validation_notes" None (optional str)
    = Valid (llm_validation_notes m).
Proof.
  unfold construct_PathwayMetadata.
  intros (g4 & notes & H4 & Hnotes & ->)%ap_valid.
  apply ap_valid in H4 as (g3 & status & H3 & Hstatus & ->).
  apply ap_valid in H3 as (g2 & ts & H2 & Hts & ->).
  apply ap_valid in H2 as (g1 & c & H1 & _ & ->).
  apply ap_valid in H1 as (g0 & src & [= <-] & _ & ->).
  now repeat split.
Qed.

End Coerced.

End RecordFacts.
Import RecordFacts.

(** X10: for a dict that has ['id'], ['name'], ['compounds'] and a dict under
    ['metadata'], the validator returns the dict with its keys in the same
    order and every entry as it was but the metadata, where
    ['verification_status'] is now validated, whatever it was, and
    ['llm_validation_notes'] is the note of the basic validation; the
    other entries of the metadata are as they were. *)
Theorem validator_stamps_metadata_only (d md : list (string * value)) :
  passes d md ->
  exists d' md',
    Validator._run (JsonText (VDict d)) = Validator.Validated (VDict d') /\
    d'.*1 = d.*1 /\
    (forall k, k <> "metadata" -> dict_get d' k = dict_get d k) /\
    dict_get d' "metadata" = Some (VDict md') /\
    dict_get md' "verification_status" = Some (VStr "validated") /\
    dict_get md' "llm_validation_notes"
      = Some (VStr "Basic validation passed") /\
    (forall k, k <> "verification_status" -> k <> "llm_validation_notes" ->
       dict_get md' k = dict_get md k).
Proof.
  intros Hp. pose proof (run_passes d md Hp) as Hrun.
  destruct Hp as [_ Hmd]. eexists _, _. split; [exact Hrun|].
  unfold stamped. split; [apply dict_store_keys|].
  split; [intros k Hk; now apply dict_get_store_other|].
  split; [eapply dict_get_store, Hmd|].
  split; [rewrite dict_get_setitem_other by discriminate;
          apply dict_get_setitem|].
  split; [apply dict_get_setitem|].
  intros k Hs Hn. now rewrite !dict_get_setitem_other.
Qed.

(** What the KEGG scraper returns, unverified, comes back validated,
    with its source. *)
Lemma validator_stamps_metadata_only_kegg :
  exists d' md',
    Validator._run (JsonText (VDict scraped_kegg))
      = Validator.Validated (VDict d') /\
    dict_get d' "metadata" = Some (VDict md') /\
    dict_get md' "verification_status" = Some (VStr "validated") /\
    dict_get md' "source" = Some (VStr "KEGG").
Proof.
  destruct (validator_stamps_metadata_only scraped_kegg scraped_kegg_metadata)
    as (d' & md' & Hrun & _ & _ & Hmd & Hstatus & _ & Hrest).
  - split; [|reflexivity]. repeat constructor; eexists; reflexivity.
  - exists d', md'. repeat split; try assumption.
    now rewrite Hrest.
Defined.

(** X11: the validator returns a validated document exactly for the JSON
    texts of a dict that has the keys ['id'], ['name'] and ['compounds']
    and a dict under ['metadata']; the values of the three fields are not
    looked at.  For a dict without one of the three, it reports the
    missing ones, in the order id, name, compounds; for a dict with the
    three and no ['metadata'], it reports the [KeyError] as an error
    during validation, not as a missing field. *)
Theorem validator_accepts_exactly (t : file_text) :
  ((exists v', Validator._run t = Validator.Validated v') <->
   (exists d md, t = JsonText (VDict d) /\ passes d md)) /\
  (forall d,
     t = JsonText (VDict d) ->
     ~ Forall (fun k => is_Some (dict_get d k)) Validator.required_fields ->
     Validator._run t
     = Validator.MissingRequiredFields
         (filter (fun k => dict_get d k = None) Validator.required_fields)) /\
  (forall d,
     t = JsonText (VDict d) ->
     Forall (fun k => is_Some (dict_get d k)) Validator.required_fields ->
     dict_get d "metadata" = None ->
     Validator._run t = Validator.ErrorDuringValidation (KeyError "metadata")).
Proof.
  split; [split|split].
  - intros [v' Hrun]. eapply run_validated, Hrun.
  - intros (d & md & -> & Hp). eexists. exact (run_passes d md Hp).
  - intros d -> Hmiss. unfold Validator._run. rewrite missing_fields_dict.
    destruct (filter _ _) eqn:E; [|reflexivity].
    now apply filter_absent_nil in E.
  - intros d -> Hreq Hmd. unfold Validator._run.
    rewrite missing_fields_dict.
    rewrite (proj2 (filter_absent_nil d _) Hreq).
    unfold Validator.set_metadata. cbn [subscript]. now rewrite Hmd.
Qed.

(** X12: validating what the validator returned returns it again,
    unchanged. *)
Theorem validator_idempotent (v v' : value) :
  Validator._run (JsonText v) = Validator.Validated v' ->
  Validator._run (JsonText v') = Validator.Validated v'.
Proof.
  intros Hrun.
  destruct (run_validated _ _ Hrun) as (d & md & [= ->] & Hp).
  rewrite (run_passes d md Hp) in Hrun. injection Hrun as <-.
  destruct Hp as [Hreq Hmd].
  set (md' := dict_setitem "llm_validation_notes"
                (VStr "Basic validation passed")
                (dict_setitem "verification_status"
                   (VStr "validated") md)).
  assert (Hmd' : dict_get (stamped d md) "metadata" = Some (VDict md'))
    by (eapply dict_get_store, Hmd).
  rewrite (run_passes (stamped d md) md').
  - f_equal. f_equal. unfold stamped at 1. fold md'.
    rewrite (dict_setitem_same md' "verification_status").
    + rewrite (dict_setitem_same md' "llm_validation_notes")
        by apply dict_get_setitem.
      now apply dict_store_same.
    + unfold md'. rewrite dict_get_setitem_other by discriminate.
      apply dict_get_setitem.
  - split; [|assumption].
    eapply Forall_impl; [exact Hreq|]. intros k Hk. cbn beta.
    unfold stamped.
    destruct (String.eqb_spec k "metadata") as [->|Hne].
    + rewrite (dict_get_store d "metadata" _ _ Hmd). eauto.
    + now rewrite dict_get_store_other.
Qed.

(** What the KEGG scraper returns, validated twice. *)
Lemma validator_idempotent_kegg :
  exists v',
    Validator._run (JsonText (VDict scraped_kegg)) = Validator.Validated v' /\
    Validator._run (JsonText v') = Validator.Validated v'.
Proof.
  eexists. split; [reflexivity|].
  apply (validator_idempotent (VDict scraped_kegg)). reflexivity.
Defined.

(** X13: when the dict that the validator returns is accepted by the
    [Pathway] model, as in [explore_pathway], the record has the
    verification status validated and the note of the basic validation,
    whatever status the input had. *)
Theorem validated_pathway_is_stamped
    (float_of_str : string -> option float) (datetime : Type)
    (datetime_of_value : value -> option datetime) (now : datetime)
    (t : file_text) (d' : list (string * value))
    (p : Models.Pathway datetime) :
  Validator._run t = Validator.Validated (VDict d') ->
  Models.construct_Pathway float_of_str datetime datetime_of_value now d'
    = Models.Valid p ->
  Models.verification_status (Models.metadata p) = "validated" /\
  Models.llm_validation_notes (Models.metadata p)
    = Some "Basic validation passed".
Proof.
  intros Hrun Hp.
  destruct (run_validated _ _ Hrun) as (d & md & -> & Hpass).
  destruct (validator_stamped_lookup d md Hpass)
    as (md' & Hrun' & Hmd' & Hstatus & Hnotes).
  rewrite Hrun' in Hrun. injection Hrun as <-.
  apply construct_Pathway_metadata in Hp as (md0 & Hmd0 & Hm).
  rewrite Hmd' in Hmd0. injection Hmd0 as <-.
  apply construct_PathwayMetadata_defaults in Hm as (_ & Hs & Hn).
  unfold Models.with_default in Hs, Hn. rewrite Hstatus in Hs.
  rewrite Hnotes in Hn. cbn in Hs, Hn.
  injection Hs as <-. injection Hn as <-. now split.
Qed.

(** What the KEGG scraper returns is validated and then accepted by the
    model. *)
Lemma validated_pathway_is_stamped_kegg :
  exists d' p,
    Validator._run (JsonText (VDict scraped_kegg))
      = Validator.Validated (VDict d') /\
    Models.construct_Pathway (fun _ => None) unit (fun _ => None) tt d'
      = Models.Valid p /\
    Models.verification_status (Models.metadata p) = "validated" /\
    Models.llm_validation_notes (Models.metadata p)
      = Some "Basic validation passed".
Proof.
  eexists _, _. split; [reflexivity|]. split; [vm_compute; reflexivity|].
  apply (validated_pathway_is_stamped (fun _ => None) unit (fun _ => None) tt
           (JsonText (VDict scraped_kegg)) _ _ eq_refl eq_refl).
Defined.

(* ===================================================================== *)
(** ** The agent: the collected pathways *)
(* ===================================================================== *)

Module AgentFacts.
Import Models Agent.
Local Open Scope validation_scope.

(** *** Dicts *)

Lemma dict_setitem_keys {A : Type} (k : string) (v : A) d k' :
  k' ∈ (dict_setitem k v d).*1 <-> k' = k \/ k' ∈ d.*1.
Proof.
  induction d as [|[k0 v0] d IH]; cbn.
  - rewrite list_elem_of_singleton, elem_of_nil. tauto.
  - destruct (String.eqb_spec k0 k) as [->|Hne]; cbn.
    + rewrite !elem_of_cons. tauto.
    + rewrite !elem_of_cons, IH. tauto.
Qed.

Lemma dict_setitem_NoDup {A : Type} (k : string) (v : A) d :
  NoDup d.*1 -> NoDup (dict_setitem k v d).*1.
Proof.
  induction d as [|[k0 v0] d IH]; cbn; intros Hd.
  - apply NoDup_singleton.
  - apply NoDup_cons in Hd as [Hk0 Hd].
    destruct (String.eqb_spec k0 k) as [->|Hne]; cbn.
    + now apply NoDup_cons.
    + apply NoDup_cons. split; [|auto].
      rewrite dict_setitem_keys. intros [->|H]; [congruence|auto].
Qed.

Lemma dict_setitem_elem {A : Type} (k : string) (v : A) d e :
  e ∈ dict_setitem k v d -> e = (k, v) \/ e ∈ d.
Proof.
  induction d as [|[k0 v0] d IH]; cbn.
  - rewrite list_elem_of_singleton. tauto.
  - destruct (String.eqb_spec k0 k) as [->|Hne]; rewrite !elem_of_cons.
    + tauto.
    + intros [->|H]; [tauto|]. destruct (IH H); tauto.
Qed.

Lemma dict_setitem_new {A : Type} (k : string) (v : A) d :
  k ∉ d.*1 -> dict_setitem k v d = d ++ [(k, v)].
Proof.
  induction d as [|[k0 v0] d IH]; cbn; [reflexivity|].
  rewrite elem_of_cons. intros Hk.
  destruct (String.eqb_spec k0 k) as [->|Hne]; [tauto|].
  rewrite IH; tauto.
Qed.

Lemma dict_setitem_known {A : Type} (k : string) (v : A) d :
  k ∈ d.*1 -> length (dict_setitem k v d) = length d.
Proof.
  induction d as [|[k0 v0] d IH]; cbn; [intros []%elem_of_nil|].
  destruct (String.eqb_spec k0 k) as [->|Hne]; [reflexivity|].
  rewrite elem_of_cons. intros [->|Hk]; [congruence|]. cbn. now rewrite IH.
Qed.

Lemma dict_setitem_other {A : Type} (k : string) (v : A) d e :
  e.1 <> k -> e ∈ d -> e ∈ dict_setitem k v d.
Proof.
  intros He. induction d as [|[k0 v0] d IH]; cbn; [intros []%elem_of_nil|].
  destruct (String.eqb_spec k0 k) as [->|Hne]; rewrite !elem_of_cons.
  - intros [->|Hin]; [now cbn in He|now right].
  - intros [->|Hin]; [now left|right; auto].
Qed.

Lemma dict_setitem_stored {A : Type} (k : string) (v : A) d :
  (k, v) ∈ dict_setitem k v d.
Proof.
  induction d as [|[k0 v0] d IH]; cbn; [apply list_elem_of_here|].
  destruct (String.eqb_spec k0 k) as [->|Hne];
    [apply list_elem_of_here|now apply list_elem_of_further].
Qed.

(** *** The ids of the discoveries *)

Lemma discovered_id_inj n m : discovered_id n = discovered_id m -> n = m.
Proof.
  unfold discovered_id. intros [= H].
  change (str_of_count n = str_of_count m) in H. unfold str_of_count in H.
  apply DecimalNat.Unsigned.to_uint_inj.
  pose proof (DecimalString.NilEmpty.usu (Nat.to_uint n)) as Hn.
  rewrite H, DecimalString.NilEmpty.usu in Hn. congruence.
Qed.

(** *** Each model reads its own [dict] *)

Lemma items_from_fmap {A : Type} (f : value -> validation A) (g : A -> value)
    i (l : list A) :
  Forall (fun a => f (g a) = Valid a) l -> items_from f i (g <$> l) = Valid l.
Proof.
  intros Hl. revert i. induction Hl as [|a l Ha _ IH]; intros i;
    [reflexivity|].
  cbn [fmap list_fmap items_from]. fold (fmap g l). now rewrite Ha, IH.
Qed.

Lemma list_of_strs l : list_of str (strs l) = Valid l.
Proof.
  apply items_from_fmap. apply Forall_forall. reflexivity.
Qed.

Lemma Compound_dict_valid c :
  model construct_Compound (Compound_dict c) = Valid c.
Proof. now destruct c as [i n [f|]]. Qed.

Lemma Reaction_dict_valid r :
  model construct_Reaction (Reaction_dict r) = Valid r.
Proof.
  destruct r as [rs ps es]. cbn [model Reaction_dict].
  unfold construct_Reaction, required, with_default.
  cbn [dict_get String.eqb Ascii.eqb Bool.eqb reactants products enzymes].
  rewrite !list_of_strs. destruct es as [es|]; [|reflexivity].
  pose proof (list_of_strs es) as Hes. unfold strs in Hes.
  cbn [or_None]. unfold optional, strs. now rewrite Hes.
Qed.

Section Coerced.

Context (float_of_str : string -> option float) {datetime : Type}
        (datetime_of_value : value -> option datetime) (now : datetime).

Local Abbreviation construct_md :=
  (construct_PathwayMetadata float_of_str datetime datetime_of_value now).
Local Abbreviation construct :=
  (construct_Pathway float_of_str datetime datetime_of_value now).
Local Abbreviation from_dict :=
  (Pathway_from float_of_str datetime datetime_of_value now).
Local Abbreviation each :=
  (Pathway_each float_of_str datetime datetime_of_value now).

(** *** The comprehension of [load_pathways] *)

Lemma Pathway_each_done its : forall acc r,
  each its acc = Done r ->
  NoDup acc.*1 ->
  NoDup r.*1 /\
  (forall k, k ∈ r.*1 <-> k ∈ acc.*1 \/ k ∈ its.*1) /\
  Forall (fun v => exists p, from_dict v = Done p) its.*2 /\
  Forall (fun entry => entry ∈ acc \/
            exists v, (entry.1, v) ∈ its /\ from_dict v = Done entry.2) r.
Proof.
  induction its as [|[k v] its IH]; intros acc r; cbn [Pathway_each].
  - intros [= ->] Hacc. split; [exact Hacc|]. split.
    + intros k. cbn. rewrite elem_of_nil. tauto.
    + split; [constructor|]. apply Forall_forall. auto.
  - destruct (from_dict v) as [p|e] eqn:Hv; [|discriminate].
    intros Hr Hacc.
    destruct (IH _ _ Hr (dict_setitem_NoDup k p acc Hacc))
      as (Hnd & Hkeys & Hall & Hfrom).
    split; [exact Hnd|]. split; [|split].
    + intros k'. rewrite Hkeys, dict_setitem_keys. cbn. rewrite elem_of_cons.
      tauto.
    + cbn. constructor; eauto.
    + eapply Forall_impl; [exact Hfrom|]. intros [k' p'] [Hin|Hin].
      * apply dict_setitem_elem in Hin as [[= -> ->]|Hin]; [|now left].
        right. exists v. split; [apply list_elem_of_here|exact Hv].
      * right. destruct Hin as (v' & Hin & Hv'). exists v'.
        split; [now apply list_elem_of_further|exact Hv'].
Qed.

Section Encoded.

Context (str_of_datetime : datetime -> string).

Local Abbreviation to_dict := (Pathway_dict datetime str_of_datetime).
Local Abbreviation ok := (reads_back datetime_of_value str_of_datetime).

Lemma confidence_float_in_unit_interval c :
  in_unit_interval c -> confidence_float float_of_str (VFloat c) = Valid c.
Proof. intros [H0 H1]. unfold confidence_float. cbn. now rewrite H0, H1. Qed.

Lemma PathwayMetadata_dict_valid m :
  in_unit_interval (confidence m) ->
  datetime_of_value (VStr (str_of_datetime (last_updated m)))
  = Some (last_updated m) ->
  model construct_md (PathwayMetadata_dict datetime str_of_datetime m)
  = Valid m.
Proof.
  destruct m as [src c t status notes]. cbn [confidence last_updated].
  intros Hc Ht. cbn [model PathwayMetadata_dict].
  unfold construct_PathwayMetadata, required, with_default.
  cbn [dict_get String.eqb Ascii.eqb Bool.eqb source confidence last_updated
       verification_status llm_validation_notes].
  rewrite (confidence_float_in_unit_interval c Hc).
  unfold datetime_input. rewrite Ht. now destruct notes.
Qed.

Lemma Pathway_dict_valid p : ok p -> from_dict (to_dict p) = Done p.
Proof.
  destruct p as [i n desc cs rs m rel]. intros [Hc Ht].
  cbn [metadata] in Hc, Ht. cbn [Pathway_from Pathway_dict].
  unfold construct_Pathway, required, with_default.
  cbn [dict_get String.eqb Ascii.eqb Bool.eqb id name description compounds
       reactions metadata related_pathways].
  rewrite (PathwayMetadata_dict_valid m Hc Ht), list_of_strs.
  cbn [list_of].
  rewrite (items_from_fmap (model construct_Compound) Compound_dict 0 cs)
    by (apply Forall_forall; intros; apply Compound_dict_valid).
  rewrite (items_from_fmap (model construct_Reaction) Reaction_dict 0 rs)
    by (apply Forall_forall; intros; apply Reaction_dict_valid).
  now destruct desc.
Qed.

Lemma Pathway_dict_done p : from_dict (to_dict p) = Done p -> ok p.
Proof.
  cbn [Pathway_from Pathway_dict].
  destruct (construct _) as [p'|errs] eqn:E; [|discriminate].
  intros [= ->].
  pose proof (construct_valid _ _ _ _ _ E) as (_ & _ & Hc).
  split; [exact Hc|].
  apply construct_Pathway_metadata in E as (md & Hmd & Hm).
  cbn in Hmd. injection Hmd as <-.
  apply construct_PathwayMetadata_defaults in Hm as (Ht & _).
  unfold with_default, datetime_input in Ht. cbn in Ht.
  destruct (datetime_of_value _) as [t|]; [|discriminate].
  cbn in Ht. now injection Ht as ->.
Qed.


End Encoded.

End Coerced.

End AgentFacts.
Import AgentFacts.

(** X14: the [Pathway] model reads the dict of a record, as [save_pathways]
    writes it, back to the same record exactly when the confidence of the
    record is within its bounds and its timestamp is read back from its
    text: every other field always reads back. *)
Theorem Pathway_dict_reads_back
    (float_of_str : string -> option float) (datetime : Type)
    (datetime_of_value : value -> option datetime) (now : datetime)
    (str_of_datetime : datetime -> string) (p : Models.Pathway datetime) :
  Agent.Pathway_from float_of_str datetime datetime_of_value now
    (Agent.Pathway_dict datetime str_of_datetime p) = Agent.Done p
  <-> reads_back datetime_of_value str_of_datetime p.
Proof.
  split; [apply Pathway_dict_done|apply Pathway_dict_valid].
Qed.

(** X15: [load_pathways] never raises and leaves the world as it is.  Either
    it prints nothing, the file holds a dict, every value of the dict is
    accepted by the [Pathway] model, and the collected pathways are
    replaced by one record for each key of the file, made of a value the
    file has under that key; or it prints one error and the collected
    pathways are those of before.  So one entry that the model refuses
    keeps every entry of the file out. *)
Theorem load_pathways_all_or_nothing
    (float_of_str : string -> option float) (datetime : Type)
    (datetime_of_value : value -> option datetime) (now : datetime)
    (filepath : path) (self : Agent.PathwayExplorerAgent datetime)
    (w : world) :
  exists printed self',
    Agent.load_pathways float_of_str datetime datetime_of_value now
      filepath self w = (printed, self', w) /\
    ((printed = [] /\
      exists d,
        files w !! filepath = Some (JsonText (VDict d)) /\
        NoDup (Agent.collected_pathways self').*1 /\
        (forall k, k ∈ (Agent.collected_pathways self').*1 <-> k ∈ d.*1) /\
        Forall (fun v => exists p,
                  Agent.Pathway_from float_of_str datetime datetime_of_value
                    now v = Agent.Done p) d.*2 /\
        Forall (fun entry => exists v,
                  (entry.1, v) ∈ d /\
                  Agent.Pathway_from float_of_str datetime datetime_of_value
                    now v = Agent.Done entry.2)
          (Agent.collected_pathways self')) \/
     (exists e, printed = [Agent.ErrorLoadingPathways e] /\ self' = self)).
Proof.
  unfold Agent.load_pathways, bind, open_read, json_load, py, ret, raise.
  destruct (is_dir w filepath);
    [eexists _, _; split; [reflexivity|right; eauto]|].
  destruct (files w !! filepath) as [t|] eqn:Hfile;
    [|eexists _, _; split; [reflexivity|right; eauto]].
  destruct (is_denied w filepath);
    [eexists _, _; split; [reflexivity|right; eauto]|].
  destruct t as [v|s]; [|eexists _, _; split; [reflexivity|right; eauto]].
  destruct v as [|b|z|f|s|l|d];
    try (eexists _, _; split; [reflexivity|right; eauto]).
  cbn [Agent.items].
  destruct (Agent.Pathway_each _ _ _ _ d []) as [r|e] eqn:Hr;
    [|eexists _, _; split; [reflexivity|right; eauto]].
  eexists _, _. split; [reflexivity|]. left. split; [reflexivity|].
  exists d. split; [reflexivity|]. cbn [Agent.collected_pathways].
  destruct (Pathway_each_done float_of_str datetime_of_value now d [] r Hr
              (NoDup_nil_2))
    as (Hnd & Hkeys & Hall & Hfrom).
  split; [exact Hnd|]. split; [|split; [exact Hall|]].
  - intros k. rewrite Hkeys. cbn. rewrite elem_of_nil. tauto.
  - eapply Forall_impl; [exact Hfrom|]. intros entry [Hin|Hin]; [|exact Hin].
    now apply elem_of_nil in Hin.
Qed.



(** X17: [discover_pathways_with_llm] gives the pathway the id made of the
    number of the collected pathways and stores it under that id: the
    stored pathway is the returned one, the entries under other keys stay,
    and an entry that was under that id is replaced, the number of
    collected pathways staying what it was.  When every key that is such an
    id has a number below the number of collected pathways, as in an agent
    without pathways, the pathway is added as a new entry, at the end, and
    the keys are again so: discoveries do not replace one another. *)
Theorem store_discovered_keeps_ids_fresh
    (datetime : Type) (pathway : Models.Pathway datetime)
    (self : Agent.PathwayExplorerAgent datetime) :
  let n := length (Agent.collected_pathways self) in
  let p := Agent.with_id datetime (Agent.discovered_id n) pathway in
  exists self',
    Agent.store_discovered datetime pathway self = ([p], self') /\
    (p.(Models.id), p) ∈ Agent.collected_pathways self' /\
    (forall entry, entry ∈ Agent.collected_pathways self ->
       entry.1 <> Agent.discovered_id n ->
       entry ∈ Agent.collected_pathways self') /\
    (Agent.discovered_id n ∈ (Agent.collected_pathways self).*1 ->
     length (Agent.collected_pathways self') = n) /\
    (ids_below_count (Agent.collected_pathways self) ->
     Agent.collected_pathways self'
     = Agent.collected_pathways self ++ [(Agent.discovered_id n, p)] /\
     ids_below_count (Agent.collected_pathways self')).
Proof.
  cbv zeta. eexists. split; [reflexivity|]. cbn [Agent.collected_pathways].
  cbn [Models.id Agent.with_id].
  split; [apply dict_setitem_stored|].
  split; [intros entry Hin Hne; now apply dict_setitem_other|].
  split; [apply dict_setitem_known|].
  intros Hinv.
  assert (Hnew : Agent.discovered_id (length (Agent.collected_pathways self))
                 ∉ (Agent.collected_pathways self).*1).
  { intros Hin. apply Hinv in Hin. lia. }
  rewrite (dict_setitem_new _ _ _ Hnew). split; [reflexivity|].
  intros k. rewrite fmap_app, elem_of_app, length_app. cbn.
  rewrite list_elem_of_singleton.
  intros [Hin|Heq]; [apply Hinv in Hin; lia|].
  apply discovered_id_inj in Heq. lia.
Qed.

(** Two discoveries of an agent without pathways get the ids
    LLM_PATH_0 and LLM_PATH_1. *)
Lemma store_discovered_keeps_ids_fresh_twice :
  exists p0 p1 self1 self2,
    Agent.store_discovered string tca_record (Agent.mkAgent [])
      = ([p0], self1) /\
    Agent.store_discovered string (glycolysis_record 1) self1
      = ([p1], self2) /\
    (Agent.collected_pathways self2).*1 = ["LLM_PATH_0"; "LLM_PATH_1"] /\
    ids_below_count (Agent.collected_pathways self2).
Proof.
  destruct (store_discovered_keeps_ids_fresh string tca_record
              (Agent.mkAgent []))
    as (self1 & Hrun1 & _ & _ & _ & Hfresh1).
  destruct Hfresh1 as [Hcp1 Hinv1]; [intros k []%elem_of_nil|].
  destruct (store_discovered_keeps_ids_fresh string (glycolysis_record 1)
              self1)
    as (self2 & Hrun2 & _ & _ & _ & Hfresh2).
  destruct (Hfresh2 Hinv1) as [Hcp2 Hinv2].
  eexists _, _, self1, self2. split; [exact Hrun1|]. split; [exact Hrun2|].
  split; [|exact Hinv2]. rewrite Hcp2, Hcp1. reflexivity.
Defined.
